(** * dynn.data.iwslt: access to the IWSLT translation datasets

    A shallow embedding of [dynn/data/iwslt.py] and the properties of its
    reader, loader and downloader.

    Conventions of the embedding.
    - A Python [str] is a [string]; a character is a code point below 256.
    - Exceptions are values of [exn]; a fallible computation returns a
      [result].
    - The operating system is an explicit [world]: the current directory,
      the text files, the directories, and the chronological list of
      [event]s (files opened and closed, directories made, archives
      extracted).  Stateful code takes a world and returns one.
    - The generator [read_iwslt] is a state machine ([gen], [gen_next],
      [gen_close]); [list(read_iwslt(...))] is [list_read_iwslt], and
      [drain_adequate] relates the two.
    - A file that is there can be read and holds valid UTF-8, with its
      line ends already translated; an archive that was downloaded can be
      opened.  The other failures of the system calls are not modelled. *)

From Stdlib Require Import String Ascii List Bool Arith Lia.
Import ListNotations.
Open Scope string_scope.

(* ================================================================== *)
(** ** Python strings *)

Module Py.

(** The double quote, for messages that contain one. *)
Definition dq : string := String (ascii_of_nat 34) "".

(** The line terminator of a text stream. *)
Definition newline : ascii := ascii_of_nat 10.

(** [str.isspace] on one character: the white space of Python below
    code point 256, that is TAB..CR, FS..US, SPACE, NEL and NBSP. *)
Definition is_space (c : ascii) : bool :=
  let n := nat_of_ascii c in
  ((9 <=? n)%nat && (n <=? 13)%nat) || ((28 <=? n)%nat && (n <=? 32)%nat)
  || (n =? 133)%nat || (n =? 160)%nat.

(** [s.startswith(c)] and [s.endswith(c)] for a one-character [c]. *)
Definition startswith (c : ascii) (s : string) : bool :=
  match s with
  | String a _ => Ascii.eqb a c
  | EmptyString => false
  end.

Fixpoint endswith (c : ascii) (s : string) : bool :=
  match s with
  | EmptyString => false
  | String a EmptyString => Ascii.eqb a c
  | String _ s' => endswith c s'
  end.

(** [s.split(sep)] for a one-character separator: never empty. *)
Fixpoint split_on (sep : ascii) (s : string) : list string :=
  match s with
  | EmptyString => [EmptyString]
  | String c s' =>
      if Ascii.eqb c sep then EmptyString :: split_on sep s'
      else match split_on sep s' with
           | h :: t => String c h :: t
           | [] => [String c EmptyString]
           end
  end.

(** [sep.join(parts)]. *)
Definition join (sep : string) (parts : list string) : string :=
  String.concat sep parts.

(** [s.lstrip()], [s.rstrip()] and [s.strip()] with no argument. *)
Fixpoint lstrip (s : string) : string :=
  match s with
  | EmptyString => EmptyString
  | String c s' => if is_space c then lstrip s' else s
  end.

Fixpoint rstrip (s : string) : string :=
  match s with
  | EmptyString => EmptyString
  | String c s' =>
      match rstrip s' with
      | EmptyString => if is_space c then EmptyString else String c EmptyString
      | r => String c r
      end
  end.

Definition strip (s : string) : string := rstrip (lstrip s).

(** [s.split()] with no argument: the maximal runs of characters that
    are not white space.  [cur] is the run being read. *)
Fixpoint split_from (cur : string) (s : string) : list string :=
  match s with
  | EmptyString =>
      match cur with EmptyString => [] | _ => [cur] end
  | String c s' =>
      if is_space c then
        match cur with
        | EmptyString => split_from EmptyString s'
        | _ => cur :: split_from EmptyString s'
        end
      else split_from (cur ++ String c EmptyString) s'
  end.

Definition split (s : string) : list string := split_from EmptyString s.

(** The lines a text stream iterates over: each keeps its terminator,
    the last one may lack it. *)
Fixpoint lines (s : string) : list string :=
  match s with
  | EmptyString => []
  | String c s' =>
      if Ascii.eqb c newline then String c EmptyString :: lines s'
      else match lines s' with
           | l :: ls => String c l :: ls
           | [] => [String c EmptyString]
           end
  end.

(** The builtin [zip] on two finite iterables. *)
Fixpoint zip {A B : Type} (xs : list A) (ys : list B) : list (A * B) :=
  match xs with
  | [] => []
  | x :: xs' =>
      match ys with
      | [] => []
      | y :: ys' => (x, y) :: zip xs' ys'
      end
  end.

(** A Python string object as far as the [is] operator sees it: its
    value, and whether it is the interned object of that value.
    CPython interns the identifier-like string constants of a module,
    so [x is "train"] holds exactly when [x] is the interned object
    whose value is [train]. *)
Record str_obj : Type := mk_str { s_val : string; s_interned : bool }.

Definition lit (s : string) : str_obj := mk_str s true.

Definition is_lit (x : str_obj) (l : string) : bool :=
  s_interned x && String.eqb (s_val x) l.

End Py.

(* ================================================================== *)
(** ** The fragment of [re] the module uses *)

Module Re.

(** One-character matchers: a literal, [.] and [[^c]]. *)
Inductive atom : Type :=
| AChar (c : ascii)
| AAny
| ANot (c : ascii).

(** Pattern items: [^], an atom, a greedy starred atom, and the two
    parentheses of group 1. *)
Inductive node : Type :=
| NBol
| NAtom (a : atom)
| NStar (a : atom)
| NOpen
| NClose.

Definition regex : Type := list node.

Definition atom_ok (a : atom) (c : ascii) : bool :=
  match a with
  | AChar x => Ascii.eqb c x
  | AAny => negb (Ascii.eqb c Py.newline)
  | ANot x => negb (Ascii.eqb c x)
  end.

(** State of group 1 while matching. *)
Inductive grp : Type :=
| GNone
| GOpen (acc : string)
| GDone (g : string).

Definition push (g : grp) (c : ascii) : grp :=
  match g with
  | GOpen acc => GOpen (acc ++ String c EmptyString)
  | _ => g
  end.

Definition finish (g : grp) : grp :=
  match g with
  | GOpen acc => GDone acc
  | _ => g
  end.

(** Greedy repetition with backtracking: take one more character when
    the rest of the pattern [k] then succeeds, else stop here. *)
Fixpoint star (ok : ascii -> bool) (k : grp -> nat -> string -> option grp)
         (g : grp) (pos : nat) (s : string) : option grp :=
  match s with
  | String c s' =>
      if ok c then
        match star ok k (push g c) (S pos) s' with
        | Some r => Some r
        | None => k g pos s
        end
      else k g pos s
  | EmptyString => k g pos s
  end.

Fixpoint exec (r : regex) (g : grp) (pos : nat) (s : string) : option grp :=
  match r with
  | [] => Some g
  | NBol :: r' => if (pos =? 0)%nat then exec r' g pos s else None
  | NAtom a :: r' =>
      match s with
      | String c s' =>
          if atom_ok a c then exec r' (push g c) (S pos) s' else None
      | EmptyString => None
      end
  | NStar a :: r' => star (atom_ok a) (exec r') g pos s
  | NOpen :: r' => exec r' (GOpen EmptyString) pos s
  | NClose :: r' => exec r' (finish g) pos s
  end.

(** [pattern.match(s)]: a match anchored at the start of [s]; the value
    carries what group 1 captured. *)
Definition rmatch (r : regex) (s : string) : option grp :=
  exec r GNone 0 s.

(** [m.group(1)]. *)
Definition group1 (m : grp) : option string :=
  match m with
  | GDone g => Some g
  | _ => None
  end.

(** The items of a literal string. *)
Fixpoint chars (s : string) : regex :=
  match s with
  | EmptyString => []
  | String c s' => NAtom (AChar c) :: chars s'
  end.

End Re.

(* ================================================================== *)
(** ** [os.path] (POSIX) and the operating system *)

Inductive exn : Type :=
| ValueError (msg : string)
| KeyError (key : string)
| FileNotFoundError (path : string).

Inductive result (A : Type) : Type :=
| Ok (a : A)
| Raise (e : exn).
Arguments Ok {A} a.
Arguments Raise {A} e.

Definition bind {A B : Type} (r : result A) (k : A -> result B) : result B :=
  match r with
  | Ok a => k a
  | Raise e => Raise e
  end.

Notation "'let*' x ':=' r 'in' k" := (bind r (fun x => k))
  (at level 10, x pattern, r at level 100, k at level 200).

Module PosixPath.

Definition sep : ascii := "/"%char.

Definition isabs (p : string) : bool := Py.startswith sep p.

(** One round of the loop of [os.path.join]. *)
Definition join1 (path b : string) : string :=
  if Py.startswith sep b then b
  else if String.eqb path EmptyString || Py.endswith sep path then path ++ b
  else path ++ String sep EmptyString ++ b.

Definition join (a : string) (p : list string) : string :=
  fold_left join1 p a.

(** The loop of [os.path.normpath]; [new_comps] is kept reversed. *)
Fixpoint norm_comps (initial_slashes : nat) (comps rev_new : list string)
  : list string :=
  match comps with
  | [] => rev rev_new
  | comp :: rest =>
      if String.eqb comp EmptyString || String.eqb comp "." then
        norm_comps initial_slashes rest rev_new
      else if negb (String.eqb comp "..")
              || ((initial_slashes =? 0)%nat && match rev_new with [] => true | _ => false end)
              || match rev_new with top :: _ => String.eqb top ".." | [] => false end
      then norm_comps initial_slashes rest (comp :: rev_new)
      else match rev_new with
           | _ :: below => norm_comps initial_slashes rest below
           | [] => norm_comps initial_slashes rest rev_new
           end
  end.

Fixpoint slashes (n : nat) : string :=
  match n with
  | 0 => EmptyString
  | S k => String sep (slashes k)
  end.

Definition normpath (path : string) : string :=
  match path with
  | EmptyString => "."
  | _ =>
      let initial_slashes :=
        if String.prefix "/" path then
          if String.prefix "//" path && negb (String.prefix "///" path)
          then 2 else 1
        else 0 in
      let comps := norm_comps initial_slashes (Py.split_on sep path) [] in
      let p := slashes initial_slashes ++ Py.join "/" comps in
      match p with
      | EmptyString => "."
      | _ => p
      end
  end.

Definition abspath (cwd path : string) : string :=
  normpath (if isabs path then path else join cwd [path]).

End PosixPath.

Inductive event : Type :=
| EvOpen (path : string)
| EvClose (path : string)
| EvMkdir (path : string)
| EvExtract (archive dest : string).

(** The part of the machine the module touches.  [fs] gives the decoded
    text of the file at an absolute path, [dirs] the absolute paths that
    are directories, [events] what has been done so far, oldest first. *)
Record world : Type := mk_world {
  cwd : string;
  fs : string -> option string;
  dirs : list string;
  events : list event
}.

Module OS.

Definition log (e : event) (w : world) : world :=
  mk_world (cwd w) (fs w) (dirs w) (events w ++ [e])%list.

(** A path as the system resolves it: relative to the current
    directory unless it is absolute. *)
Definition resolve (w : world) (p : string) : string :=
  PosixPath.join (cwd w) [p].

(** A text file object, read line by line: the path it was opened at
    and the lines not yet read. *)
Record file_obj : Type := mk_file { f_path : string; f_lines : list string }.

(** [open(p)] with the encoding UTF-8. *)
Definition open (p : string) (w : world) : result file_obj * world :=
  let a := resolve w p in
  match fs w a with
  | Some text => (Ok (mk_file a (Py.lines text)), log (EvOpen a) w)
  | None => (Raise (FileNotFoundError p), w)
  end.

(** [f.close()]. *)
Definition close (f : file_obj) (w : world) : world :=
  log (EvClose (f_path f)) w.

Definition isdir (p : string) (w : world) : bool :=
  existsb (String.eqb (resolve w p)) (dirs w).

Definition mkdir (p : string) (w : world) : world :=
  let a := resolve w p in
  mk_world (cwd w) (fs w) (dirs w ++ [a])%list (events w ++ [EvMkdir a])%list.

(** [with tarfile.open(archive) as tar: tar.extractall(dest)]. *)
Definition extractall (archive dest : string) (w : world) : world :=
  log (EvExtract (resolve w archive) (resolve w dest)) w.

Fixpoint remove_one (p : string) (l : list string) : list string :=
  match l with
  | [] => []
  | x :: l' => if String.eqb x p then l' else x :: remove_one p l'
  end.

(** The files opened and not closed after a list of events. *)
Fixpoint held (acc : list string) (es : list event) : list string :=
  match es with
  | [] => acc
  | EvOpen p :: es' => held (acc ++ [p])%list es'
  | EvClose p :: es' => held (remove_one p acc) es'
  | _ :: es' => held acc es'
  end.

Definition open_handles (w : world) : list string := held [] (events w).

End OS.

(* ================================================================== *)
(** ** The module [dynn.data.iwslt] *)

Module Iwslt.

Import Py.

Definition iwslt_url : string := "https://wit3.fbk.eu/archive".

(** The dictionary [supported], in insertion order. *)
Definition supported : list (string * list (string * string)) :=
  [ ("2016.de-en",
      [ ("train", "train.tags.de-en");
        ("dev", "IWSLT16.TED.tst2013.de-en");
        ("test", "IWSLT16.TED.tst2014.de-en") ]);
    ("2016.fr-en",
      [ ("train", "train.tags.fr-en");
        ("dev", "IWSLT16.TED.tst2013.fr-en");
        ("test", "IWSLT16.TED.tst2014.fr-en") ]) ].

(** [k in d] and [d[k]] on a dictionary with string keys. *)
Definition dict_in {V : Type} (d : list (string * V)) (k : string) : bool :=
  existsb (fun kv => String.eqb (fst kv) k) d.

Fixpoint dict_get {V : Type} (d : list (string * V)) (k : string) : result V :=
  match d with
  | [] => Raise (KeyError k)
  | (k', v) :: d' => if String.eqb k' k then Ok v else dict_get d' k
  end.

Definition supported_string : string := Py.join ", " (map fst supported).

(** The compiled pattern [is_meta]; its items are [^], [<] and [.*]. *)
Definition is_meta : Re.regex :=
  ([Re.NBol] ++ Re.chars "<" ++ [Re.NStar Re.AAny])%list.

(** The compiled pattern [eval_segment]; its items are [^], [<seg],
    [[^>]*], [>], group 1 around [.*], and [</seg>]. *)
Definition seg_tail : Re.regex := Re.NClose :: Re.chars "</seg>".

Definition seg_body : Re.regex :=
  (Re.chars ">" ++ [Re.NOpen; Re.NStar Re.AAny] ++ seg_tail)%list.

Definition eval_segment : Re.regex :=
  ([Re.NBol] ++ Re.chars "<seg" ++ [Re.NStar (Re.ANot ">")] ++ seg_body)%list.

Definition local_dir (year langpair : string) : string :=
  "iwslt" ++ year ++ "." ++ langpair.

(** [a, b = parts]. *)
Definition unpack2 (parts : list string) : result (string * string) :=
  match parts with
  | [a; b] => Ok (a, b)
  | [] | [_] =>
      Raise (ValueError "not enough values to unpack (expected 2, got 1)")
  | _ => Raise (ValueError "too many values to unpack (expected 2)")
  end.

(** *** [download_iwslt] *)

(** [download_if_not_there] belongs to [data_util], which is another
    module: it is a parameter here.  Its arguments are the file, the
    URL, the folder, [force] and [local_file]; it tells whether it
    downloaded. *)
Definition downloader : Type :=
  string -> string -> string -> bool -> string -> world -> bool * world.

Definition download_iwslt (download_if_not_there : downloader)
           (path year langpair : string) (force : bool) (w : world)
  : result unit * world :=
  match unpack2 (split_on "-" langpair) with
  | Raise e => (Raise e, w)
  | Ok (src, tgt) =>
      let langpair_url :=
        iwslt_url ++ "/" ++ year ++ "-01//texts/" ++ src ++ "/" ++ tgt ++ "/" in
      let langpair_file := langpair ++ ".tgz" in
      let local_file := "iwslt" ++ year ++ "." ++ langpair ++ ".tgz" in
      let (downloaded, w1) :=
        download_if_not_there langpair_file langpair_url path force local_file w in
      if downloaded then
        let abs_filename :=
          PosixPath.join (PosixPath.abspath (cwd w1) path) [local_file] in
        let directory := local_dir year langpair in
        let w2 := if negb (OS.isdir directory w1)
                  then OS.mkdir directory w1 else w1 in
        (Ok tt, OS.extractall abs_filename directory w2)
      else (Ok tt, w1)
  end.

(** *** [read_iwslt] *)

Definition pair : Type := list string * list string.

Definition split_error : exn :=
  ValueError ("split must be " ++ dq ++ "train" ++ dq ++ ", "
                ++ dq ++ "dev" ++ dq ++ " or " ++ dq ++ "test" ++ dq).

(** Lines 91 to 105: the check of [split] and the names of the two
    files.  Nothing is opened here. *)
Definition read_setup (split : str_obj) (path year langpair : string)
           (w : world) : result (bool * string * string) :=
  if negb (is_lit split "test" || is_lit split "dev" || is_lit split "train")
  then Raise split_error
  else
    let is_train := is_lit split "train" in
    let* (src, tgt) := unpack2 (split_on "-" langpair) in
    let directory := local_dir year langpair in
    let root_path :=
      PosixPath.join (PosixPath.abspath (cwd w) path) [directory] in
    let* entry := dict_get supported (year ++ "." ++ langpair) in
    let* prefix := dict_get entry (s_val split) in
    let src_file := PosixPath.join root_path [langpair; prefix ++ "." ++ src] in
    let tgt_file := PosixPath.join root_path [langpair; prefix ++ "." ++ tgt] in
    if negb is_train
    then Ok (is_train, src_file ++ ".xml", tgt_file ++ ".xml")
    else Ok (is_train, src_file, tgt_file).

(** The local variables of the generator that live across a [yield]. *)
Record frame : Type := mk_frame {
  is_train : bool;
  fr_eos : option string;
  src_obj : OS.file_obj;
  tgt_obj : OS.file_obj
}.

(** Lines 91 to 107: [read_setup], then the two calls of [open]. *)
Definition read_prologue (split : str_obj) (path year langpair : string)
           (eos : option string) (w : world) : result frame * world :=
  match read_setup split path year langpair w with
  | Raise e => (Raise e, w)
  | Ok (it, src_file, tgt_file) =>
      match OS.open src_file w with
      | (Raise e, w1) => (Raise e, w1)
      | (Ok so, w1) =>
          match OS.open tgt_file w1 with
          | (Raise e, w2) => (Raise e, w2)
          | (Ok to, w2) => (Ok (mk_frame it eos so to), w2)
          end
      end
  end.

(** Lines 123 to 128 for one side: strip, split, append [eos] maybe. *)
Definition append_eos (eos : option string) (toks : list string) : list string :=
  match eos with
  | Some e => (toks ++ [e])%list
  | None => toks
  end.

Definition tokens (eos : option string) (l : string) : list string :=
  append_eos eos (split (strip l)).

Definition matches (r : Re.regex) (l : string) : bool :=
  match Re.rmatch r l with Some _ => true | None => false end.

(** The body of the [for] loop on one pair of lines: [None] is
    [continue], [Some p] is [yield p].  Group 1 takes part in every
    match of [eval_segment] (lemma [eval_segment_group1]), so the last
    branch of the inner [match] is never taken. *)
Definition process_line (is_train : bool) (eos : option string)
           (src_l tgt_l : string) : option pair :=
  if is_train && matches is_meta src_l && matches is_meta tgt_l then None
  else if negb is_train then
    match Re.rmatch eval_segment src_l, Re.rmatch eval_segment tgt_l with
    | Some src_seg, Some tgt_seg =>
        match Re.group1 src_seg, Re.group1 tgt_seg with
        | Some src_l', Some tgt_l' => Some (tokens eos src_l', tokens eos tgt_l')
        | _, _ => None
        end
    | _, _ => None
    end
  else Some (tokens eos src_l, tokens eos tgt_l).

(** The [for] loop run to its end: every pair it yields. *)
Fixpoint yield_all (is_train : bool) (eos : option string)
         (line_pairs : list (string * string)) : list pair :=
  match line_pairs with
  | [] => []
  | (src_l, tgt_l) :: rest =>
      match process_line is_train eos src_l tgt_l with
      | Some p => p :: yield_all is_train eos rest
      | None => yield_all is_train eos rest
      end
  end.

Definition read_loop (is_train : bool) (eos : option string)
           (src_lines tgt_lines : list string) : list pair :=
  yield_all is_train eos (zip src_lines tgt_lines).

(** The [for] loop run to its next [yield]: the pair and what is left
    of the two files, or [None] when [zip] is exhausted. *)
Fixpoint advance (is_train : bool) (eos : option string)
         (src_lines tgt_lines : list string)
  : option (pair * list string * list string) :=
  match src_lines with
  | [] => None
  | src_l :: src_rest =>
      match tgt_lines with
      | [] => None
      | tgt_l :: tgt_rest =>
          match process_line is_train eos src_l tgt_l with
          | Some p => Some (p, src_rest, tgt_rest)
          | None => advance is_train eos src_rest tgt_rest
          end
      end
  end.

(** The generator object: not started, suspended at the [yield] with
    its frame, or finished. *)
Inductive gen : Type :=
| GStart (split : str_obj) (path year langpair : string) (eos : option string)
| GSuspended (fr : frame)
| GFinished.

Inductive outcome : Type :=
| Yield (p : pair)
| StopIteration
| Raised (e : exn).

(** Run the loop from the frame [fr]: up to the next [yield], or out of
    the loop and through the two calls of [close] (lines 132, 133). *)
Definition resume (fr : frame) (w : world) : outcome * gen * world :=
  match advance (is_train fr) (fr_eos fr)
                (OS.f_lines (src_obj fr)) (OS.f_lines (tgt_obj fr)) with
  | Some (p, src_rest, tgt_rest) =>
      (Yield p,
       GSuspended (mk_frame (is_train fr) (fr_eos fr)
                     (OS.mk_file (OS.f_path (src_obj fr)) src_rest)
                     (OS.mk_file (OS.f_path (tgt_obj fr)) tgt_rest)),
       w)
  | None =>
      (StopIteration, GFinished, OS.close (tgt_obj fr) (OS.close (src_obj fr) w))
  end.

(** [next(g)]. *)
Definition gen_next (g : gen) (w : world) : outcome * gen * world :=
  match g with
  | GStart split path year langpair eos =>
      match read_prologue split path year langpair eos w with
      | (Raise e, w') => (Raised e, GFinished, w')
      | (Ok fr, w') => resume fr w'
      end
  | GSuspended fr => resume fr w
  | GFinished => (StopIteration, GFinished, w)
  end.

(** [g.close()], which is also what dropping the generator does:
    [GeneratorExit] is raised at the [yield]; the function has no
    [try], so it leaves at once and lines 132, 133 are not run. *)
Definition gen_close (g : gen) (w : world) : gen * world := (GFinished, w).

(** The argument [eos] a generator was made with. *)
Definition gen_eos (g : gen) : option string :=
  match g with
  | GStart _ _ _ _ eos => eos
  | GSuspended fr => fr_eos fr
  | GFinished => None
  end.

(** [list(g)] by repeated [next]; [fuel] bounds the number of calls. *)
Fixpoint drain (fuel : nat) (g : gen) (w : world)
  : option (result (list pair) * world) :=
  match fuel with
  | 0 => None
  | S n =>
      match gen_next g w with
      | (Yield p, g', w') =>
          match drain n g' w' with
          | Some (Ok ps, w'') => Some (Ok (p :: ps), w'')
          | other => other
          end
      | (StopIteration, _, w') => Some (Ok [], w')
      | (Raised e, _, w') => Some (Raise e, w')
      end
  end.

(** [list(read_iwslt(split, path, year, langpair, eos))]: the generator
    run to its end by a consumer that always asks for the next pair. *)
Definition list_read_iwslt (split : str_obj) (path year langpair : string)
           (eos : option string) (w : world) : result (list pair) * world :=
  match read_prologue split path year langpair eos w with
  | (Raise e, w') => (Raise e, w')
  | (Ok fr, w') =>
      (Ok (read_loop (is_train fr) (fr_eos fr)
             (OS.f_lines (src_obj fr)) (OS.f_lines (tgt_obj fr))),
       OS.close (tgt_obj fr) (OS.close (src_obj fr) w'))
  end.

(** The lines of the two files the reader works on, when it gets as
    far as reading: [read_setup] and the two files of the world. *)
Definition opened_lines (split : str_obj) (path year langpair : string)
           (w : world) : option (bool * list string * list string) :=
  match read_setup split path year langpair w with
  | Raise _ => None
  | Ok (it, src_file, tgt_file) =>
      match fs w (OS.resolve w src_file), fs w (OS.resolve w tgt_file) with
      | Some s, Some t => Some (it, lines s, lines t)
      | _, _ => None
      end
  end.

(** What [eval_segment] captures on a line, if it matches. *)
Definition seg_content (l : string) : option string :=
  match Re.rmatch eval_segment l with
  | Some m => Re.group1 m
  | None => None
  end.

(** The world after a reader that opened [sf] and [tf] ran to its end. *)
Definition after_read (sf tf : string) (w : world) : world :=
  OS.close (OS.mk_file tf []) (OS.close (OS.mk_file sf [])
    (OS.log (EvOpen tf) (OS.log (EvOpen sf) w))).

(** *** [load_iwslt] *)

Definition split_result : Type := list (list string) * list (list string).

(** The [for] loop of [load_iwslt] over the splits still to read. *)
Fixpoint load_splits (todo : list str_obj) (path year langpair : string)
         (eos : option string) (splits : list split_result) (w : world)
  : result (list split_result) * world :=
  match todo with
  | [] => (Ok splits, w)
  | split :: rest =>
      match list_read_iwslt split path year langpair eos w with
      | (Raise e, w') => (Raise e, w')
      | (Ok data, w') =>
          let src_data := map fst data in
          let tgt_data := map snd data in
          load_splits rest path year langpair eos
                      (splits ++ [(src_data, tgt_data)])%list w'
      end
  end.

Definition unzip (data : list pair) : split_result :=
  (map fst data, map snd data).

Definition unsupported_error (year langpair : string) : exn :=
  ValueError (year ++ "." ++ langpair ++ " not supported. "
                ++ "Supported datasets are " ++ supported_string).

Definition load_iwslt (path year langpair : string) (eos : option string)
           (w : world) : result (list split_result) * world :=
  if negb (dict_in supported (year ++ "." ++ langpair))
  then (Raise (unsupported_error year langpair), w)
  else load_splits [lit "train"; lit "dev"; lit "test"]
                   path year langpair eos [] w.

(** The data set is there: the reader finds both files of each split. *)
Definition dataset_present (path year langpair : string) (w : world) : bool :=
  forallb (fun split =>
             match opened_lines split path year langpair w with
             | Some _ => true
             | None => false
             end)
          [lit "train"; lit "dev"; lit "test"].

End Iwslt.

(* ================================================================== *)
(** ** What the specification says, in its own words *)

Module Spec.

(** A line begins with [<]. *)
Definition begins_with_lt (l : string) : bool :=
  match l with
  | String "<" _ => true
  | _ => false
  end.

(** Both sides of a line pair look like metadata. *)
Definition both_meta (lp : string * string) : bool :=
  begins_with_lt (fst lp) && begins_with_lt (snd lp).

(** The three recognized values of a split. *)
Definition recognized_split (s : string) : bool :=
  existsb (String.eqb s) ["train"; "dev"; "test"].

(** A token is a non-empty string without white space. *)
Definition good_token (t : string) : Prop :=
  t <> EmptyString /\ Forall (fun c => Py.is_space c = false) (list_ascii_of_string t).

(** A string of white space only. *)
Definition blank (l : string) : Prop :=
  Forall (fun c => Py.is_space c = true) (list_ascii_of_string l).



End Spec.

(* ================================================================== *)
(** ** A small data set, for examples *)

Module Demo.

Import Iwslt.

Definition nl : string := String Py.newline EmptyString.

Definition train_de : string :=
  "<url>http://www.ted.com/talks/1</url>" ++ nl
    ++ "Hallo  Welt" ++ nl
    ++ "   " ++ nl.

Definition train_en : string :=
  "<url>http://www.ted.com/talks/1</url>" ++ nl
    ++ " Hello world " ++ nl
    ++ "<i>applause</i>" ++ nl
    ++ "one line more" ++ nl.

Definition dev_de : string :=
  "<doc docid=1>" ++ nl
    ++ "<seg id=1> Guten Tag </seg>" ++ nl
    ++ "<seg id=2> nur hier </seg>" ++ nl.

Definition dev_en : string :=
  "<doc docid=1>" ++ nl
    ++ "<seg id=1> Good  day </seg>" ++ nl
    ++ "</doc>" ++ nl.

Definition test_de : string := "<seg id=1>Danke</seg>" ++ nl.

Definition test_en : string := "<seg id=1>Thank you</seg>" ++ nl.

Definition dir : string := "/data/iwslt2016.de-en/de-en/".

Definition files : list (string * string) :=
  [ (dir ++ "train.tags.de-en.de", train_de);
    (dir ++ "train.tags.de-en.en", train_en);
    (dir ++ "IWSLT16.TED.tst2013.de-en.de.xml", dev_de);
    (dir ++ "IWSLT16.TED.tst2013.de-en.en.xml", dev_en);
    (dir ++ "IWSLT16.TED.tst2014.de-en.de.xml", test_de);
    (dir ++ "IWSLT16.TED.tst2014.de-en.en.xml", test_en) ].

Fixpoint lookup (l : list (string * string)) (p : string) : option string :=
  match l with
  | [] => None
  | (k, v) :: l' => if String.eqb k p then Some v else lookup l' p
  end.

(** The data set extracted under [/data], the process running in
    [/home/user]. *)
Definition w_data : world :=
  mk_world "/home/user" (lookup files) ["/data"; "/home/user"] [].

(** The same with the German training file alone. *)
Definition w_src_only : world :=
  mk_world "/home/user" (lookup (firstn 1 files)) ["/data"; "/home/user"] [].

(** Nothing extracted yet. *)
Definition w_fresh : world :=
  mk_world "/home/user" (fun _ => None) ["/data"; "/home/user"] [].

(** A [download_if_not_there] that fetches the archive and says so. *)
Definition new_download : downloader := fun _ _ _ _ _ w => (true, w).

Definition train_reader : gen :=
  GStart (Py.lit "train") "/data" "2016" "de-en" None.

End Demo.

(* ================================================================== *)
(** ** Vocabulary for the files of a corpus and for arguments *)

Module Corpus.

Import Iwslt.

(** How many times [c] occurs in [s]. *)
Fixpoint count_char (c : ascii) (s : string) : nat :=
  match s with
  | EmptyString => 0
  | String x s' => (if Ascii.eqb x c then 1 else 0) + count_char c s'
  end.

(** [c] does not occur in [s]. *)
Definition lacks (c : ascii) (s : string) : bool :=
  forallb (fun x => negb (Ascii.eqb x c)) (list_ascii_of_string s).

(** A word: a non-empty string without white space. *)
Definition is_word (t : string) : bool :=
  negb (String.eqb t EmptyString)
  && forallb (fun c => negb (Py.is_space c)) (list_ascii_of_string t).

(** What may follow a line: nothing, or a line terminator and more. *)
Definition line_end (tail : string) : bool :=
  match tail with
  | EmptyString => true
  | String c _ => Ascii.eqb c Py.newline
  end.

(** A line of a train file that holds the given words. *)
Definition text_line (words : list string) : string :=
  Py.join " " words ++ String Py.newline EmptyString.

(** A line of an evaluation file that holds the given words. *)
Definition seg_line (attrs : string) (words : list string) : string :=
  "<seg" ++ attrs ++ ">" ++ Py.join " " words ++ "</seg>"
    ++ String Py.newline EmptyString.

(** A pair with the token [e] appended on both sides. *)
Definition with_eos (e : string) (p : pair) : pair :=
  ((fst p ++ [e])%list, (snd p ++ [e])%list).

Definition map_result {A B : Type} (f : A -> B) (r : result A) : result B :=
  match r with
  | Ok a => Ok (f a)
  | Raise e => Raise e
  end.

(** The directory [read_iwslt] takes the files of a data set from. *)
Definition root_path (path year langpair : string) (w : world) : string :=
  PosixPath.join (PosixPath.abspath (cwd w) path) [local_dir year langpair].

(** The suffix of the files of a split. *)
Definition suffix (is_train : bool) : string :=
  if is_train then EmptyString else ".xml".

(** A [download_if_not_there] that finds the archive in place: it
    downloads only when forced. *)
Definition cached_download : downloader :=
  fun _ _ _ force _ w => (force, w).

End Corpus.

(* ================================================================== *)
(** ** Lemmas on strings *)

Section StringFacts.

Lemma append_empty_r (s : string) : s ++ EmptyString = s.
Proof.
  induction s as [| c s IH]; simpl; [reflexivity | now rewrite IH].
Qed.

Lemma append_snoc (a b : string) (c : ascii) :
  (a ++ String c EmptyString) ++ b = a ++ String c b.
Proof.
  induction a as [| x a IH]; simpl; [reflexivity | now rewrite IH].
Qed.

Lemma chars_of_append (a b : string) :
  list_ascii_of_string (a ++ b)
  = (list_ascii_of_string a ++ list_ascii_of_string b)%list.
Proof.
  induction a as [| x a IH]; simpl; [reflexivity | now rewrite IH].
Qed.

(** Every string [split_from] returns is a run without white space,
    when the run under construction is one. *)
Lemma split_from_good (s : string) :
  forall cur,
    Forall (fun c => Py.is_space c = false) (list_ascii_of_string cur) ->
    Forall Spec.good_token (Py.split_from cur s).
Proof.
  induction s as [| c s IH]; intros cur Hcur; simpl.
  - destruct cur as [| x cur]; constructor; [| constructor].
    split; [discriminate | exact Hcur].
  - destruct (Py.is_space c) eqn:Ec.
    + destruct cur as [| x cur].
      * apply IH. constructor.
      * constructor; [split; [discriminate | exact Hcur] |].
        apply IH. constructor.
    + apply IH. rewrite chars_of_append. apply Forall_app. split; [exact Hcur |].
      simpl. constructor; [exact Ec | constructor].
Qed.

Lemma split_good (s : string) : Forall Spec.good_token (Py.split s).
Proof. apply split_from_good. constructor. Qed.

Lemma lstrip_blank (s : string) : Spec.blank s -> Py.lstrip s = EmptyString.
Proof.
  unfold Spec.blank. induction s as [| c s IH]; simpl; intros H; [reflexivity |].
  inversion H as [| ? ? Hc Hs]; subst. rewrite Hc. now apply IH.
Qed.

Lemma split_strip_blank (s : string) :
  Spec.blank s -> Py.split (Py.strip s) = [].
Proof.
  intros H. unfold Py.strip. now rewrite (lstrip_blank s H).
Qed.

Lemma begins_with_lt_char (c : ascii) (s : string) :
  Spec.begins_with_lt (String c s) = Ascii.eqb c "<".
Proof.
  destruct c as [[] [] [] [] [] [] [] []]; reflexivity.
Qed.

Lemma blank_not_lt (s : string) : Spec.blank s -> Spec.begins_with_lt s = false.
Proof.
  destruct s as [| c s]; [reflexivity |].
  intros H. inversion H as [| ? ? Hc _]; subst.
  rewrite begins_with_lt_char.
  destruct (Ascii.eqb_spec c "<") as [-> |]; [discriminate Hc | reflexivity].
Qed.

Lemma zip_length {A B : Type} (xs : list A) :
  forall ys : list B,
    List.length (Py.zip xs ys) = Nat.min (List.length xs) (List.length ys).
Proof.
  induction xs as [| x xs IH]; intros [| y ys]; simpl; auto.
Qed.

End StringFacts.

(* ================================================================== *)
(** ** Lemmas on the two patterns *)

Section PatternFacts.

Import Re.
Import Iwslt.

(** A starred atom at the end of a pattern always matches. *)
Lemma star_last_matches (ok : ascii -> bool) (s : string) :
  forall g pos, exists m, star ok (exec []) g pos s = Some m.
Proof.
  induction s as [| c s IH]; intros g pos; cbn [star].
  - now exists g.
  - destruct (ok c).
    + destruct (IH (push g c) (S pos)) as [m ->]. now exists m.
    + now exists g.
Qed.

(** [is_meta] matches the lines that begin with [<], and only them. *)
Lemma is_meta_begins_with_lt (l : string) :
  Iwslt.matches Iwslt.is_meta l = Spec.begins_with_lt l.
Proof.
  unfold Iwslt.matches, rmatch, Iwslt.is_meta.
  destruct l as [| c l]; [reflexivity |].
  rewrite begins_with_lt_char. cbn [app chars exec Nat.eqb atom_ok].
  destruct (Ascii.eqb c "<"); [| reflexivity].
  destruct (star_last_matches (atom_ok AAny) l (push GNone c) 1) as [m Hm].
  cbn [exec] in Hm. now rewrite Hm.
Qed.

(** Once group 1 is closed, literal items leave it as it is. *)
Lemma exec_chars_closed (x : string) :
  forall a pos s m, exec (chars x) (GDone a) pos s = Some m -> m = GDone a.
Proof.
  induction x as [| c x IH]; intros a pos s m; cbn [chars exec].
  - now intros [= <-].
  - destruct s as [| d s]; [discriminate |].
    destruct (atom_ok (AChar c) d); [| discriminate]. apply IH.
Qed.

Lemma star_body_closed (s : string) :
  forall acc pos m,
    star (atom_ok AAny) (exec seg_tail) (GOpen acc) pos s = Some m ->
    exists g, m = GDone g.
Proof.
  induction s as [| c s IH]; intros acc pos m; cbn [star].
  - unfold seg_tail. cbn [exec finish]. intros H.
    apply exec_chars_closed in H. now exists acc.
  - destruct (atom_ok AAny c).
    + destruct (star _ _ (push (GOpen acc) c) (S pos) s) eqn:E.
      * intros [= <-]. cbn [push] in E. now apply IH in E.
      * unfold seg_tail. cbn [exec finish]. intros H.
        apply exec_chars_closed in H. now exists acc.
    + unfold seg_tail. cbn [exec finish]. intros H.
      apply exec_chars_closed in H. now exists acc.
Qed.

Lemma exec_body_closed (pos : nat) (s : string) (m : grp) :
  exec seg_body GNone pos s = Some m -> exists g, m = GDone g.
Proof.
  unfold seg_body. cbn [chars app exec].
  destruct s as [| c s]; [discriminate |].
  destruct (atom_ok (AChar ">") c); [| discriminate].
  cbn [push]. apply star_body_closed.
Qed.

Lemma star_attrs_closed (s : string) :
  forall pos m,
    star (atom_ok (ANot ">")) (exec seg_body) GNone pos s = Some m ->
    exists g, m = GDone g.
Proof.
  induction s as [| c s IH]; intros pos m; cbn [star].
  - apply exec_body_closed.
  - destruct (atom_ok (ANot ">") c).
    + destruct (star _ _ (push GNone c) (S pos) s) eqn:E.
      * intros [= <-]. cbn [push] in E. now apply IH in E.
      * apply exec_body_closed.
    + apply exec_body_closed.
Qed.

(** Group 1 takes part in every match of [eval_segment]. *)
Lemma eval_segment_group1 (l : string) (m : grp) :
  rmatch Iwslt.eval_segment l = Some m -> exists g, group1 m = Some g.
Proof.
  unfold rmatch, Iwslt.eval_segment.
  cbn [chars app exec Nat.eqb].
  destruct l as [| c1 l]; [discriminate |].
  destruct (atom_ok (AChar "<") c1); [| discriminate].
  destruct l as [| c2 l]; [discriminate |].
  destruct (atom_ok (AChar "s") c2); [| discriminate].
  destruct l as [| c3 l]; [discriminate |].
  destruct (atom_ok (AChar "e") c3); [| discriminate].
  destruct l as [| c4 l]; [discriminate |].
  destruct (atom_ok (AChar "g") c4); [| discriminate].
  cbn [push]. intros H. apply star_attrs_closed in H.
  destruct H as [g ->]. now exists g.
Qed.

(** The content of a segment line: on
    [<seg] attributes [>] content [</seg>], followed by nothing or by a
    line terminator, group 1 is the content. *)
Lemma star_body_content (content : string) :
  forall acc pos tail,
    Forall (fun c => Ascii.eqb c Py.newline = false)
           (list_ascii_of_string content) ->
    tail = EmptyString \/ (exists t, tail = String Py.newline t) ->
    star (atom_ok AAny) (exec seg_tail) (GOpen acc) pos
         (content ++ "</seg>" ++ tail)
    = Some (GDone (acc ++ content)).
Proof.
  induction content as [| c content IH]; intros acc pos tail Hc Ht.
  - rewrite append_empty_r.
    destruct Ht as [-> | [t ->]]; reflexivity.
  - inversion Hc as [| ? ? Hc1 Hc2]; subst.
    cbn [append star atom_ok]. rewrite Hc1. cbn [negb push].
    rewrite (IH _ _ _ Hc2 Ht). now rewrite append_snoc.
Qed.

Lemma star_attrs_content (attrs : string) :
  forall pos content tail,
    Forall (fun c => Ascii.eqb c ">" = false) (list_ascii_of_string attrs) ->
    Forall (fun c => Ascii.eqb c Py.newline = false)
           (list_ascii_of_string content) ->
    tail = EmptyString \/ (exists t, tail = String Py.newline t) ->
    star (atom_ok (ANot ">")) (exec seg_body) GNone pos
         (attrs ++ ">" ++ content ++ "</seg>" ++ tail)
    = Some (GDone content).
Proof.
  induction attrs as [| a attrs IH]; intros pos content tail Ha Hc Ht.
  - cbn [append star atom_ok Ascii.eqb Bool.eqb negb].
    unfold seg_body. cbn [chars app exec atom_ok Ascii.eqb Bool.eqb push].
    apply (star_body_content content EmptyString _ tail Hc Ht).
  - inversion Ha as [| ? ? Ha1 Ha2]; subst.
    cbn [append star atom_ok]. rewrite Ha1. cbn [negb push].
    now rewrite (IH _ _ _ Ha2 Hc Ht).
Qed.

Lemma eval_segment_content (attrs content tail : string) :
  Forall (fun c => Ascii.eqb c ">" = false) (list_ascii_of_string attrs) ->
  Forall (fun c => Ascii.eqb c Py.newline = false)
         (list_ascii_of_string content) ->
  tail = EmptyString \/ (exists t, tail = String Py.newline t) ->
  rmatch Iwslt.eval_segment
         ("<seg" ++ attrs ++ ">" ++ content ++ "</seg>" ++ tail)
  = Some (GDone content).
Proof.
  intros Ha Hc Ht. unfold rmatch, Iwslt.eval_segment.
  cbn [chars app append exec Nat.eqb atom_ok Ascii.eqb Bool.eqb push].
  now apply star_attrs_content.
Qed.

End PatternFacts.

(* ================================================================== *)
(** ** Lemmas on the loop of the reader *)

Section LoopFacts.

Import Iwslt.

Lemma process_line_train (eos : option string) (s t : string) :
  process_line true eos s t
  = if Spec.both_meta (s, t) then None else Some (tokens eos s, tokens eos t).
Proof.
  unfold process_line, Spec.both_meta. rewrite !is_meta_begins_with_lt.
  cbn [andb fst snd negb]. reflexivity.
Qed.


Lemma process_line_eval (eos : option string) (s t : string) :
  process_line false eos s t
  = match seg_content s, seg_content t with
    | Some a, Some b => Some (tokens eos a, tokens eos b)
    | _, _ => None
    end.
Proof.
  unfold process_line, seg_content. cbn [andb negb].
  destruct (Re.rmatch eval_segment s) as [ms |] eqn:Es;
    destruct (Re.rmatch eval_segment t) as [mt |] eqn:Et; try reflexivity.
  destruct (eval_segment_group1 s ms Es) as [a ->]. reflexivity.
Qed.

(** Whatever the split, a yielded pair is the two token lists of some
    pair of texts. *)
Lemma process_line_tokens (it : bool) (eos : option string) (s t : string)
      (p : pair) :
  process_line it eos s t = Some p ->
  exists a b, p = (tokens eos a, tokens eos b).
Proof.
  destruct it.
  - rewrite process_line_train. destruct (Spec.both_meta (s, t)); [discriminate |].
    intros [= <-]. now exists s, t.
  - rewrite process_line_eval.
    destruct (seg_content s) as [a |]; [| discriminate].
    destruct (seg_content t) as [b |]; [| discriminate].
    intros [= <-]. now exists a, b.
Qed.

Lemma yield_all_length_le (it : bool) (eos : option string)
      (lps : list (string * string)) :
  List.length (yield_all it eos lps) <= List.length lps.
Proof.
  induction lps as [| [s t] lps IH]; simpl; [lia |].
  destruct (process_line it eos s t); simpl; lia.
Qed.

Lemma yield_all_in (it : bool) (eos : option string)
      (lps : list (string * string)) (p : pair) :
  In p (yield_all it eos lps) ->
  exists s t, In (s, t) lps /\ process_line it eos s t = Some p.
Proof.
  induction lps as [| [s t] lps IH]; simpl; [tauto |].
  destruct (process_line it eos s t) as [q |] eqn:E.
  - intros [<- | H].
    + exists s, t. auto.
    + destruct (IH H) as (s' & t' & Hin & Hp). exists s', t'. auto.
  - intros H. destruct (IH H) as (s' & t' & Hin & Hp). exists s', t'. auto.
Qed.

Lemma yield_all_train_length (eos : option string)
      (lps : list (string * string)) :
  List.length (yield_all true eos lps) + List.length (filter Spec.both_meta lps)
  = List.length lps.
Proof.
  induction lps as [| [s t] lps IH]; simpl; [reflexivity |].
  rewrite process_line_train. destruct (Spec.both_meta (s, t)); simpl; lia.
Qed.

Lemma advance_some (it : bool) (eos : option string) (src : list string) :
  forall tgt p src' tgt',
    advance it eos src tgt = Some (p, src', tgt') ->
    read_loop it eos src tgt = p :: read_loop it eos src' tgt'
    /\ List.length src' < List.length src.
Proof.
  unfold read_loop.
  induction src as [| s src IH]; intros [| t tgt] p src' tgt'; simpl;
    try discriminate.
  destruct (process_line it eos s t) as [q |].
  - intros [= <- <- <-]. split; [reflexivity | lia].
  - intros H. destruct (IH _ _ _ _ H) as [-> Hlt]. split; [reflexivity | lia].
Qed.

Lemma advance_none (it : bool) (eos : option string) (src : list string) :
  forall tgt, advance it eos src tgt = None -> read_loop it eos src tgt = [].
Proof.
  unfold read_loop.
  induction src as [| s src IH]; intros [| t tgt]; simpl; try reflexivity.
  destruct (process_line it eos s t); [discriminate | apply IH].
Qed.

Lemma advance_yields (it : bool) (eos : option string) (src : list string) :
  forall tgt p src' tgt',
    advance it eos src tgt = Some (p, src', tgt') ->
    exists s t, process_line it eos s t = Some p.
Proof.
  induction src as [| s src IH]; intros [| t tgt] p src' tgt'; simpl;
    try discriminate.
  destruct (process_line it eos s t) as [q |] eqn:E.
  - intros [= <- _ _]. now exists s, t.
  - apply IH.
Qed.

Lemma tokens_end_with_eos (e l : string) :
  exists front, tokens (Some e) l = (front ++ [e])%list.
Proof. unfold tokens, append_eos. now eexists. Qed.

(** Repeated [next] from a suspended generator gives what the loop run
    to its end gives, and closes both files. *)
Lemma drain_suspended (n : nat) :
  forall fr w,
    List.length (OS.f_lines (src_obj fr)) < n ->
    drain n (GSuspended fr) w
    = Some (Ok (read_loop (is_train fr) (fr_eos fr)
                  (OS.f_lines (src_obj fr)) (OS.f_lines (tgt_obj fr))),
            OS.close (tgt_obj fr) (OS.close (src_obj fr) w)).
Proof.
  induction n as [| n IH]; intros fr w Hn; [lia |].
  cbn [drain gen_next]. unfold resume.
  destruct (advance _ _ _ _) as [[[p src'] tgt'] |] eqn:E.
  - destruct (advance_some _ _ _ _ _ _ _ E) as [-> Hlt].
    rewrite IH by (cbn; lia). reflexivity.
  - now rewrite (advance_none _ _ _ _ E).
Qed.

Lemma drain_adequate (split : Py.str_obj) (path year langpair : string)
      (eos : option string) (w : world) :
  exists n, forall fuel,
      n <= fuel ->
      drain fuel (GStart split path year langpair eos) w
      = Some (list_read_iwslt split path year langpair eos w).
Proof.
  unfold list_read_iwslt.
  destruct (read_prologue split path year langpair eos w) as [[fr | e] w'] eqn:E.
  - exists (S (List.length (OS.f_lines (src_obj fr)))).
    intros [| n] Hn; [lia |].
    pose proof (drain_suspended (S n) fr w' ltac:(lia)) as H.
    cbn [drain gen_next] in H |- *. rewrite E. exact H.
  - exists 1. intros [| n] Hn; [lia |].
    cbn [drain gen_next]. now rewrite E.
Qed.

End LoopFacts.

(* ================================================================== *)
(** ** Lemmas on the reader as a whole *)

Section ReaderFacts.

Import Iwslt.

Lemma opened_lines_same_files (split : Py.str_obj)
      (path year langpair : string) (w w' : world) :
  cwd w' = cwd w -> fs w' = fs w ->
  opened_lines split path year langpair w'
  = opened_lines split path year langpair w.
Proof.
  intros Hc Hf. unfold opened_lines, read_setup, OS.resolve.
  now rewrite Hc, Hf.
Qed.



Lemma open_some (p : string) (w : world) (text : string) :
  fs w (OS.resolve w p) = Some text ->
  OS.open p w
  = (Ok (OS.mk_file (OS.resolve w p) (Py.lines text)),
     OS.log (EvOpen (OS.resolve w p)) w).
Proof. unfold OS.open. now intros ->. Qed.

(** When both files are there the reader runs to its end: it yields
    what the loop yields on their lines, and has opened and closed
    both. *)
Lemma list_read_iwslt_ok (split : Py.str_obj) (path year langpair : string)
      (eos : option string) (w : world) (it : bool) (sl tl : list string) :
  opened_lines split path year langpair w = Some (it, sl, tl) ->
  exists sf tf,
    list_read_iwslt split path year langpair eos w
    = (Ok (read_loop it eos sl tl), after_read sf tf w).
Proof.
  intros H. unfold opened_lines in H. unfold list_read_iwslt, read_prologue.
  destruct (read_setup split path year langpair w) as [[[it' sf] tf] | e];
    [| discriminate].
  destruct (fs w (OS.resolve w sf)) as [s |] eqn:Es; [| discriminate].
  destruct (fs w (OS.resolve w tf)) as [t |] eqn:Et; [| discriminate].
  injection H as -> <- <-.
  rewrite (open_some sf w s Es).
  rewrite (open_some tf (OS.log (EvOpen (OS.resolve w sf)) w) t Et).
  exists (OS.resolve w sf), (OS.resolve w tf). reflexivity.
Qed.

Lemma read_prologue_frame (split : Py.str_obj) (path year langpair : string)
      (eos : option string) (w w' : world) (fr : frame) :
  read_prologue split path year langpair eos w = (Ok fr, w') ->
  fr_eos fr = eos.
Proof.
  unfold read_prologue.
  destruct (read_setup split path year langpair w) as [[[it sf] tf] | e];
    [| discriminate].
  destruct (OS.open sf w) as [[so | e] w1]; [| discriminate].
  destruct (OS.open tf w1) as [[to | e] w2]; [| discriminate].
  now intros [= <- _].
Qed.

(** One step of the generator: a pair it yields ends with the
    end-of-sequence token on both sides, and the generator keeps the
    token for its next steps. *)
Lemma gen_next_keeps_eos (g g' : gen) (w w' : world) (e : string) (p : pair) :
  gen_eos g = Some e ->
  gen_next g w = (Yield p, g', w') ->
  (exists front, fst p = (front ++ [e])%list)
  /\ (exists front, snd p = (front ++ [e])%list)
  /\ gen_eos g' = Some e.
Proof.
  assert (R : forall fr w0,
             fr_eos fr = Some e ->
             resume fr w0 = (Yield p, g', w') ->
             (exists front, fst p = (front ++ [e])%list)
             /\ (exists front, snd p = (front ++ [e])%list)
             /\ gen_eos g' = Some e).
  { intros fr w0 He. unfold resume. rewrite He.
    destruct (advance _ _ _ _) as [[[q src'] tgt'] |] eqn:E; [| discriminate].
    intros [= -> <- _].
    destruct (advance_yields _ _ _ _ _ _ _ E) as (s & t & Hp).
    apply process_line_tokens in Hp. destruct Hp as (a & b & ->).
    cbn [fst snd gen_eos fr_eos].
    repeat split; try apply tokens_end_with_eos. }
  destruct g as [split path year langpair eos | fr |]; cbn [gen_eos gen_next].
  - intros ->.
    destruct (read_prologue split path year langpair (Some e) w)
      as [[fr | x] w1] eqn:E; [| discriminate].
    apply R. exact (read_prologue_frame _ _ _ _ _ _ _ _ E).
  - apply R.
  - discriminate.
Qed.

(** The only keys of [supported], taken apart. *)
Lemma supported_key_inv (year langpair : string) :
  dict_in supported (year ++ "." ++ langpair) = true ->
  year = "2016" /\ (langpair = "de-en" \/ langpair = "fr-en").
Proof.
  unfold dict_in, supported. cbn [existsb fst]. rewrite orb_false_r.
  intros H. apply orb_true_iff in H.
  destruct H as [H | H]; apply String.eqb_eq in H;
    repeat (destruct year as [| ? year]; cbn [append] in H;
            [ try discriminate H | first [discriminate H | injection H as <- H] ]);
    try discriminate H;
    injection H as <-; auto.
Qed.



Lemma held_app (es es' : list event) :
  forall acc, OS.held acc (es ++ es')%list = OS.held (OS.held acc es) es'.
Proof.
  induction es as [| e es IH]; intros acc; [reflexivity |].
  destruct e; simpl; apply IH.
Qed.

(** A reader that runs to its end leaves no file open. *)
Lemma after_read_releases (sf tf : string) (w : world) :
  OS.open_handles w = [] -> OS.open_handles (after_read sf tf w) = [].
Proof.
  unfold OS.open_handles, after_read, OS.close, OS.log. cbn [events OS.f_path].
  intros H. rewrite <- !app_assoc, held_app, H. simpl.
  rewrite String.eqb_refl. simpl. now rewrite String.eqb_refl.
Qed.

End ReaderFacts.

(* ================================================================== *)
(** ** The properties of the module *)

Section Claims.

Import Py.
Import Iwslt.

Lemma is_lit_other (x : str_obj) (l : string) :
  s_val x <> l -> is_lit x l = false.
Proof.
  intros H. unfold is_lit. apply String.eqb_neq in H. rewrite H.
  apply andb_false_r.
Qed.

Lemma unzip_lengths (data : list pair) :
  List.length (fst (unzip data)) = List.length (snd (unzip data)).
Proof. unfold unzip. cbn [fst snd]. now rewrite !length_map. Qed.

Lemma yield_all_train_content (eos : option string)
      (lps : list (string * string)) :
  List.length (yield_all true eos lps)
  = List.length (filter (fun lp => negb (Spec.both_meta lp)) lps).
Proof.
  induction lps as [| [s t] lps IH]; simpl; [reflexivity |].
  rewrite process_line_train. destruct (Spec.both_meta (s, t)); simpl; lia.
Qed.


(** The loader on the small data set. *)
Example load_demo :
  fst (load_iwslt "/data" "2016" "de-en" (Some "<eos>") Demo.w_data)
  = Ok [ ([["Hallo"; "Welt"; "<eos>"]; ["<eos>"]],
          [["Hello"; "world"; "<eos>"]; ["<i>applause</i>"; "<eos>"]]);
         ([["Guten"; "Tag"; "<eos>"]], [["Good"; "day"; "<eos>"]]);
         ([["Danke"; "<eos>"]], [["Thank"; "you"; "<eos>"]]) ].
Proof. vm_compute. reflexivity. Qed.

(** The files the loader opened and closed, in order. *)
Example load_demo_events :
  events (snd (load_iwslt "/data" "2016" "de-en" None Demo.w_data))
  = [ EvOpen "/data/iwslt2016.de-en/de-en/train.tags.de-en.de";
      EvOpen "/data/iwslt2016.de-en/de-en/train.tags.de-en.en";
      EvClose "/data/iwslt2016.de-en/de-en/train.tags.de-en.de";
      EvClose "/data/iwslt2016.de-en/de-en/train.tags.de-en.en";
      EvOpen "/data/iwslt2016.de-en/de-en/IWSLT16.TED.tst2013.de-en.de.xml";
      EvOpen "/data/iwslt2016.de-en/de-en/IWSLT16.TED.tst2013.de-en.en.xml";
      EvClose "/data/iwslt2016.de-en/de-en/IWSLT16.TED.tst2013.de-en.de.xml";
      EvClose "/data/iwslt2016.de-en/de-en/IWSLT16.TED.tst2013.de-en.en.xml";
      EvOpen "/data/iwslt2016.de-en/de-en/IWSLT16.TED.tst2014.de-en.de.xml";
      EvOpen "/data/iwslt2016.de-en/de-en/IWSLT16.TED.tst2014.de-en.en.xml";
      EvClose "/data/iwslt2016.de-en/de-en/IWSLT16.TED.tst2014.de-en.de.xml";
      EvClose "/data/iwslt2016.de-en/de-en/IWSLT16.TED.tst2014.de-en.en.xml" ].
Proof. vm_compute. reflexivity. Qed.

(** A split string that is equal to [train] without being the interned
    constant does not pass the identity test of [read_iwslt]. *)
Example equal_but_not_identical_split :
  list_read_iwslt (mk_str "train" false) "/data" "2016" "de-en" None Demo.w_data
  = (Raise split_error, Demo.w_data).
Proof. reflexivity. Qed.

(** A segment line of an evaluation file. *)
Example segment_line :
  process_line false None
    ("<seg id=1> Guten Tag </seg>" ++ Demo.nl)
    ("<seg id=1> Good  day </seg>" ++ Demo.nl)
  = Some (["Guten"; "Tag"], ["Good"; "day"]).
Proof. vm_compute. reflexivity. Qed.

(** C1. For a supported (year, langpair) whose files are there,
    [load_iwslt] returns exactly three split results, those of the
    reader on train, dev and test in this order, and in each of them
    the list of source sentences and the list of target sentences have
    the same length. *)
Theorem load_iwslt_three_splits (path year langpair : string)
        (eos : option string) (w : world) :
  dict_in supported (year ++ "." ++ langpair) = true ->
  dataset_present path year langpair w = true ->
  exists train dev test w',
    load_iwslt path year langpair eos w
    = (Ok [unzip train; unzip dev; unzip test], w')
    /\ fst (list_read_iwslt (lit "train") path year langpair eos w) = Ok train
    /\ fst (list_read_iwslt (lit "dev") path year langpair eos w) = Ok dev
    /\ fst (list_read_iwslt (lit "test") path year langpair eos w) = Ok test
    /\ Forall (fun r : split_result =>
                 List.length (fst r) = List.length (snd r))
              [unzip train; unzip dev; unzip test].
Proof.
  intros Hs Hp. unfold dataset_present in Hp. cbn [forallb] in Hp.
  destruct (opened_lines (lit "train") path year langpair w)
    as [[[i1 s1] t1] |] eqn:E1; [| discriminate].
  destruct (opened_lines (lit "dev") path year langpair w)
    as [[[i2 s2] t2] |] eqn:E2; [| discriminate].
  destruct (opened_lines (lit "test") path year langpair w)
    as [[[i3 s3] t3] |] eqn:E3; [| discriminate].
  clear Hp.
  destruct (list_read_iwslt_ok _ _ _ _ eos _ _ _ _ E1) as (sf1 & tf1 & R1).
  destruct (list_read_iwslt_ok _ _ _ _ eos _ _ _ _ E2) as (sf2 & tf2 & R2).
  destruct (list_read_iwslt_ok _ _ _ _ eos _ _ _ _ E3) as (sf3 & tf3 & R3).
  set (w1 := after_read sf1 tf1 w) in *.
  assert (E2' : opened_lines (lit "dev") path year langpair w1
                = Some (i2, s2, t2))
    by (rewrite <- E2; now apply opened_lines_same_files).
  destruct (list_read_iwslt_ok _ _ _ _ eos _ _ _ _ E2') as (sf2' & tf2' & R2').
  set (w2 := after_read sf2' tf2' w1) in *.
  assert (E3' : opened_lines (lit "test") path year langpair w2
                = Some (i3, s3, t3))
    by (rewrite <- E3; now apply opened_lines_same_files).
  destruct (list_read_iwslt_ok _ _ _ _ eos _ _ _ _ E3') as (sf3' & tf3' & R3').
  exists (read_loop i1 eos s1 t1), (read_loop i2 eos s2 t2),
    (read_loop i3 eos s3 t3), (after_read sf3' tf3' w2).
  split.
  - unfold load_iwslt. rewrite Hs. cbn [negb load_splits].
    rewrite R1. rewrite R2'. rewrite R3'. reflexivity.
  - rewrite R1, R2, R3. cbn [fst]. repeat split.
    repeat constructor; apply unzip_lengths.
Qed.

Lemma load_iwslt_three_splits_witness :
  exists train dev test w',
    load_iwslt "/data" "2016" "de-en" (Some "<eos>") Demo.w_data
    = (Ok [unzip train; unzip dev; unzip test], w')
    /\ fst (list_read_iwslt (lit "train") "/data" "2016" "de-en"
              (Some "<eos>") Demo.w_data) = Ok train
    /\ fst (list_read_iwslt (lit "dev") "/data" "2016" "de-en"
              (Some "<eos>") Demo.w_data) = Ok dev
    /\ fst (list_read_iwslt (lit "test") "/data" "2016" "de-en"
              (Some "<eos>") Demo.w_data) = Ok test
    /\ Forall (fun r : split_result =>
                 List.length (fst r) = List.length (snd r))
              [unzip train; unzip dev; unzip test].
Proof.
  apply (load_iwslt_three_splits "/data" "2016" "de-en" (Some "<eos>")
           Demo.w_data); vm_compute; reflexivity.
Defined.

(** C2. On the train split the reader skips a pair of lines exactly
    when both lines begin with [<]; so on two files whose line pairs
    are [N] pairs of that kind and [M] others it yields [M] pairs. *)
Theorem train_reader_skips_meta_pairs (path year langpair : string)
        (eos : option string) (w : world) (sl tl : list string) (N M : nat) :
  opened_lines (lit "train") path year langpair w = Some (true, sl, tl) ->
  List.length (filter Spec.both_meta (zip sl tl)) = N ->
  List.length (filter (fun lp => negb (Spec.both_meta lp)) (zip sl tl)) = M ->
  (forall s t,
      process_line true eos s t = None
      <-> Spec.begins_with_lt s = true /\ Spec.begins_with_lt t = true)
  /\ List.length (zip sl tl) = N + M
  /\ exists data w',
      list_read_iwslt (lit "train") path year langpair eos w = (Ok data, w')
      /\ List.length data = M.
Proof.
  intros Ho HN HM. split; [| split].
  - intros s t. rewrite process_line_train. unfold Spec.both_meta.
    cbn [fst snd]. rewrite <- andb_true_iff.
    destruct (Spec.begins_with_lt s && Spec.begins_with_lt t);
      split; congruence.
  - rewrite <- (yield_all_train_length eos (zip sl tl)).
    rewrite yield_all_train_content. lia.
  - destruct (list_read_iwslt_ok _ _ _ _ eos _ _ _ _ Ho) as (sf & tf & R).
    eexists. eexists. split; [exact R |].
    unfold read_loop. now rewrite yield_all_train_content.
Qed.

Lemma train_reader_skips_meta_pairs_witness :
  (forall s t,
      process_line true None s t = None
      <-> Spec.begins_with_lt s = true /\ Spec.begins_with_lt t = true)
  /\ List.length (zip (lines Demo.train_de) (lines Demo.train_en)) = 1 + 2
  /\ exists data w',
      list_read_iwslt (lit "train") "/data" "2016" "de-en" None Demo.w_data
      = (Ok data, w')
      /\ List.length data = 2.
Proof.
  apply (train_reader_skips_meta_pairs "/data" "2016" "de-en" None
           Demo.w_data (lines Demo.train_de) (lines Demo.train_en)
           1 2); vm_compute; reflexivity.
Defined.




(** The reader on the evaluation files of the small data set: the first
    and the last pair of lines are skipped, the second is yielded. *)
Example dev_demo :
  fst (list_read_iwslt (lit "dev") "/data" "2016" "de-en" None Demo.w_data)
  = Ok [(["Guten"; "Tag"], ["Good"; "day"])].
Proof. vm_compute. reflexivity. Qed.

(** The archive is always extracted into [local_dir] as the system
    resolves it, that is under the current directory, whatever [path]
    is. *)
Lemma download_iwslt_extracts_in_cwd (dl : downloader)
      (path year langpair src tgt : string) (force : bool) (w w1 : world) :
  unpack2 (split_on "-" langpair) = Ok (src, tgt) ->
  dl (langpair ++ ".tgz")
     (iwslt_url ++ "/" ++ year ++ "-01//texts/" ++ src ++ "/" ++ tgt ++ "/")
     path force ("iwslt" ++ year ++ "." ++ langpair ++ ".tgz") w
  = (true, w1) ->
  exists w2 made,
    download_iwslt dl path year langpair force w = (Ok tt, w2)
    /\ events w2
       = (events w1 ++ made
            ++ [EvExtract
                  (OS.resolve w1
                     (PosixPath.join (PosixPath.abspath (cwd w1) path)
                        [("iwslt" ++ year ++ "." ++ langpair ++ ".tgz")%string]))
                  (PosixPath.join (cwd w1) [local_dir year langpair])])%list.
Proof.
  intros Hu Hd. unfold download_iwslt. rewrite Hu, Hd.
  destruct (OS.isdir (local_dir year langpair) w1).
  - exists (OS.extractall
              (PosixPath.join (PosixPath.abspath (cwd w1) path)
                 ["iwslt" ++ year ++ "." ++ langpair ++ ".tgz"])
              (local_dir year langpair) w1), [].
    split; reflexivity.
  - exists (OS.extractall
              (PosixPath.join (PosixPath.abspath (cwd w1) path)
                 ["iwslt" ++ year ++ "." ++ langpair ++ ".tgz"])
              (local_dir year langpair)
              (OS.mkdir (local_dir year langpair) w1)),
      [EvMkdir (OS.resolve w1 (local_dir year langpair))].
    split; [reflexivity |].
    unfold OS.extractall, OS.mkdir, OS.log, OS.resolve. cbn [events cwd].
    now rewrite <- app_assoc.
Qed.

(** C4. After a new download into [/data], by a process whose current
    directory is [/home/user], [download_iwslt] makes the directory
    [iwslt2016.de-en] under [/home/user] and extracts the archive
    there, not under [/data], where [read_iwslt] then looks for the
    files. *)
Theorem download_extracts_outside_path :
  let w' := snd (download_iwslt Demo.new_download "/data" "2016" "de-en"
                   false Demo.w_fresh) in
  events w'
  = [EvMkdir "/home/user/iwslt2016.de-en";
     EvExtract "/data/iwslt2016.de-en.tgz" "/home/user/iwslt2016.de-en"]
  /\ PosixPath.join (PosixPath.abspath (cwd w') "/data")
                    [local_dir "2016" "de-en"]
     = "/data/iwslt2016.de-en"
  /\ read_setup (lit "train") "/data" "2016" "de-en" w'
     = Ok (true, "/data/iwslt2016.de-en/de-en/train.tags.de-en.de",
           "/data/iwslt2016.de-en/de-en/train.tags.de-en.en").
Proof. vm_compute. repeat split. Qed.

(** C5. With a split whose value is none of train, dev and test, the
    reader raises the [ValueError] on the split at its first step, and
    the world is the one it started in: no file was opened. *)
Theorem invalid_split_raises_before_open (split : str_obj)
        (path year langpair : string) (eos : option string) (w : world) :
  Spec.recognized_split (s_val split) = false ->
  gen_next (GStart split path year langpair eos) w
  = (Raised split_error, GFinished, w)
  /\ list_read_iwslt split path year langpair eos w = (Raise split_error, w)
  /\ exists msg, split_error = ValueError msg.
Proof.
  unfold Spec.recognized_split. cbn [existsb]. intros H.
  apply orb_false_elim in H. destruct H as [Htrain H].
  apply orb_false_elim in H. destruct H as [Hdev H].
  apply orb_false_elim in H. destruct H as [Htest _].
  assert (Hs : read_setup split path year langpair w = Raise split_error).
  { unfold read_setup, is_lit. rewrite Htrain, Hdev, Htest.
    now rewrite !andb_false_r. }
  cbn [gen_next]. unfold list_read_iwslt, read_prologue. rewrite Hs.
  repeat split. now eexists.
Qed.

Lemma invalid_split_raises_before_open_witness :
  gen_next (GStart (lit "valid") "/data" "2016" "de-en" None) Demo.w_data
  = (Raised split_error, GFinished, Demo.w_data)
  /\ list_read_iwslt (lit "valid") "/data" "2016" "de-en" None Demo.w_data
     = (Raise split_error, Demo.w_data)
  /\ exists msg, split_error = ValueError msg.
Proof.
  apply (invalid_split_raises_before_open (lit "valid") "/data" "2016"
           "de-en" None Demo.w_data).
  reflexivity.
Defined.

(** C6. When the key made of year and langpair is not in [supported],
    [load_iwslt] raises a [ValueError] whose message lists
    [2016.de-en, 2016.fr-en], and the world is the one it started in:
    no reader ran. *)
Theorem unsupported_dataset_raises (path year langpair : string)
        (eos : option string) (w : world) :
  dict_in supported (year ++ "." ++ langpair) = false ->
  load_iwslt path year langpair eos w
  = (Raise (ValueError
              (year ++ "." ++ langpair
                 ++ " not supported. Supported datasets are 2016.de-en, 2016.fr-en")),
     w).
Proof.
  intros H. unfold load_iwslt. rewrite H. reflexivity.
Qed.

Lemma unsupported_dataset_raises_witness :
  load_iwslt "/data" "2099" "xx-yy" None Demo.w_data
  = (Raise (ValueError
              "2099.xx-yy not supported. Supported datasets are 2016.de-en, 2016.fr-en"),
     Demo.w_data).
Proof.
  apply (unsupported_dataset_raises "/data" "2099" "xx-yy" None Demo.w_data).
  reflexivity.
Defined.

(** C7. With an end-of-sequence token, the token is the last one of the
    source tokens and of the target tokens of every pair the reader
    yields. *)
Theorem eos_is_last_token (split : str_obj) (path year langpair e : string)
        (w : world) (it : bool) (sl tl : list string) :
  opened_lines split path year langpair w = Some (it, sl, tl) ->
  exists data w',
    list_read_iwslt split path year langpair (Some e) w = (Ok data, w')
    /\ forall src tgt,
        In (src, tgt) data ->
        (exists front, src = (front ++ [e])%list)
        /\ (exists front, tgt = (front ++ [e])%list).
Proof.
  intros Ho.
  destruct (list_read_iwslt_ok _ _ _ _ (Some e) _ _ _ _ Ho) as (sf & tf & R).
  eexists. eexists. split; [exact R |].
  intros src tgt Hin. unfold read_loop in Hin.
  apply yield_all_in in Hin. destruct Hin as (s & t & _ & Hp).
  apply process_line_tokens in Hp. destruct Hp as (a & b & [= -> ->]).
  unfold tokens, append_eos. split; eexists; reflexivity.
Qed.

Lemma eos_is_last_token_witness :
  exists data w',
    list_read_iwslt (lit "train") "/data" "2016" "de-en" (Some "<eos>")
                    Demo.w_data = (Ok data, w')
    /\ forall src tgt,
        In (src, tgt) data ->
        (exists front, src = (front ++ ["<eos>"])%list)
        /\ (exists front, tgt = (front ++ ["<eos>"])%list).
Proof.
  apply (eos_is_last_token (lit "train") "/data" "2016" "de-en" "<eos>"
           Demo.w_data true
           (lines Demo.train_de) (lines Demo.train_en)).
  vm_compute. reflexivity.
Defined.

(** C8. The reader takes the lines of the two files in pairs, as many
    pairs as the shorter file has lines; it yields what the loop body
    gives on these pairs, so at most that many pairs. *)
Theorem reader_stops_at_shorter_file (split : str_obj)
        (path year langpair : string) (eos : option string) (w : world)
        (it : bool) (sl tl : list string) :
  opened_lines split path year langpair w = Some (it, sl, tl) ->
  exists data w',
    list_read_iwslt split path year langpair eos w = (Ok data, w')
    /\ data = yield_all it eos (zip sl tl)
    /\ List.length (zip sl tl) = Nat.min (List.length sl) (List.length tl)
    /\ List.length data <= Nat.min (List.length sl) (List.length tl).
Proof.
  intros Ho.
  destruct (list_read_iwslt_ok _ _ _ _ eos _ _ _ _ Ho) as (sf & tf & R).
  eexists. eexists. split; [exact R |]. unfold read_loop.
  split; [reflexivity |]. split; [apply zip_length |].
  rewrite <- (zip_length sl tl). apply yield_all_length_le.
Qed.

Lemma reader_stops_at_shorter_file_witness :
  exists data w',
    list_read_iwslt (lit "train") "/data" "2016" "de-en" None Demo.w_data
    = (Ok data, w')
    /\ data = yield_all true None
                        (zip (lines Demo.train_de) (lines Demo.train_en))
    /\ List.length (zip (lines Demo.train_de) (lines Demo.train_en))
       = Nat.min (List.length (lines Demo.train_de))
                 (List.length (lines Demo.train_en))
    /\ List.length data
       <= Nat.min (List.length (lines Demo.train_de))
                  (List.length (lines Demo.train_en)).
Proof.
  apply (reader_stops_at_shorter_file (lit "train") "/data" "2016" "de-en"
           None Demo.w_data true
           (lines Demo.train_de) (lines Demo.train_en)).
  vm_compute. reflexivity.
Defined.

(** C9. A consumer that takes one pair from the reader and then closes
    it leaves both files open; a reader whose second [open] fails
    leaves the first file open; only the reader that runs to the end
    of its loop closes the two files. *)
Theorem reader_leaves_files_open :
  (let '(o, g1, w1) := gen_next Demo.train_reader Demo.w_data in
   o = Yield (["Hallo"; "Welt"], ["Hello"; "world"])
   /\ OS.open_handles (snd (gen_close g1 w1))
      = ["/data/iwslt2016.de-en/de-en/train.tags.de-en.de";
         "/data/iwslt2016.de-en/de-en/train.tags.de-en.en"])
  /\ (let '(o, g1, w1) := gen_next Demo.train_reader Demo.w_src_only in
      o = Raised (FileNotFoundError
                    "/data/iwslt2016.de-en/de-en/train.tags.de-en.en")
      /\ OS.open_handles w1
         = ["/data/iwslt2016.de-en/de-en/train.tags.de-en.de"])
  /\ OS.open_handles
       (snd (list_read_iwslt (lit "train") "/data" "2016" "de-en" None
               Demo.w_data))
     = [].
Proof. vm_compute. repeat split. Qed.

(** C10. In every pair the reader yields, each token other than the
    appended end-of-sequence token is a non-empty string without white
    space; and a text of white space only gives no token (but the
    end-of-sequence token when one is given), so such a line of a train
    file is yielded with an empty token list. *)
Theorem yielded_tokens_are_words (split : str_obj)
        (path year langpair : string) (eos : option string) (w : world)
        (it : bool) (sl tl : list string) :
  opened_lines split path year langpair w = Some (it, sl, tl) ->
  (exists data w',
      list_read_iwslt split path year langpair eos w = (Ok data, w')
      /\ forall src tgt,
          In (src, tgt) data ->
          exists src_words tgt_words,
            src = append_eos eos src_words
            /\ tgt = append_eos eos tgt_words
            /\ Forall Spec.good_token src_words
            /\ Forall Spec.good_token tgt_words)
  /\ forall l,
      Spec.blank l ->
      tokens eos l = append_eos eos []
      /\ forall t, process_line true eos l t
                   = Some (append_eos eos [], tokens eos t).
Proof.
  intros Ho. split.
  - destruct (list_read_iwslt_ok _ _ _ _ eos _ _ _ _ Ho) as (sf & tf & R).
    eexists. eexists. split; [exact R |].
    intros src tgt Hin. unfold read_loop in Hin.
    apply yield_all_in in Hin. destruct Hin as (s & t & _ & Hp).
    apply process_line_tokens in Hp. destruct Hp as (a & b & [= -> ->]).
    exists (Py.split (strip a)), (Py.split (strip b)).
    repeat split; try reflexivity; apply split_good.
  - intros l Hl.
    assert (Ht : tokens eos l = append_eos eos [])
      by (unfold tokens; now rewrite split_strip_blank).
    split; [exact Ht |]. intros t. rewrite process_line_train.
    unfold Spec.both_meta. cbn [fst snd]. rewrite (blank_not_lt l Hl).
    cbn [andb]. now rewrite Ht.
Qed.

Lemma yielded_tokens_are_words_witness :
  (exists data w',
      list_read_iwslt (lit "train") "/data" "2016" "de-en" (Some "<eos>")
                      Demo.w_data = (Ok data, w')
      /\ forall src tgt,
          In (src, tgt) data ->
          exists src_words tgt_words,
            src = append_eos (Some "<eos>") src_words
            /\ tgt = append_eos (Some "<eos>") tgt_words
            /\ Forall Spec.good_token src_words
            /\ Forall Spec.good_token tgt_words)
  /\ forall l,
      Spec.blank l ->
      tokens (Some "<eos>") l = append_eos (Some "<eos>") []
      /\ forall t, process_line true (Some "<eos>") l t
                   = Some (append_eos (Some "<eos>") [], tokens (Some "<eos>") t).
Proof.
  apply (yielded_tokens_are_words (lit "train") "/data" "2016" "de-en"
           (Some "<eos>") Demo.w_data true
           (lines Demo.train_de) (lines Demo.train_en)).
  vm_compute. reflexivity.
Defined.

End Claims.

(* ================================================================== *)
(** ** The segment pattern, read backwards *)

Section SegmentFacts.

Import Re.
Import Iwslt.

Lemma lacks_forall (c : ascii) (s : string) :
  Corpus.lacks c s = true ->
  Forall (fun x => Ascii.eqb x c = false) (list_ascii_of_string s).
Proof.
  unfold Corpus.lacks. induction (list_ascii_of_string s) as [| x l IH];
    cbn [forallb]; intros H; constructor.
  - apply andb_prop in H. destruct H as [H _]. now apply negb_true_iff in H.
  - apply IH. apply andb_prop in H. tauto.
Qed.

Lemma forall_lacks (c : ascii) (s : string) :
  Forall (fun x => Ascii.eqb x c = false) (list_ascii_of_string s) ->
  Corpus.lacks c s = true.
Proof.
  unfold Corpus.lacks. induction 1 as [| x l Hx _ IH]; cbn [forallb];
    [reflexivity |].
  now rewrite Hx, IH.
Qed.

Lemma line_end_cases (tail : string) :
  Corpus.line_end tail = true ->
  tail = EmptyString \/ (exists t, tail = String Py.newline t).
Proof.
  destruct tail as [| c t]; [now left |]. cbn [Corpus.line_end]. intros H.
  apply Ascii.eqb_eq in H. subst. right. now exists t.
Qed.

Lemma exec_chars_prefix (x : string) :
  forall a pos s m,
    exec (chars x) (GDone a) pos s = Some m -> exists rest, s = x ++ rest.
Proof.
  induction x as [| c x IH]; intros a pos s m; cbn [chars exec].
  - intros _. now exists s.
  - destruct s as [| d s]; [discriminate |].
    cbn [atom_ok]. destruct (Ascii.eqb_spec d c) as [-> |]; [| discriminate].
    intros H. destruct (IH _ _ _ _ H) as [rest ->]. now exists rest.
Qed.

Lemma exec_tail_inv (acc : string) (pos : nat) (s : string) (m : grp) :
  exec seg_tail (GOpen acc) pos s = Some m ->
  (exists rest, s = "</seg>" ++ rest) /\ m = GDone acc.
Proof.
  unfold seg_tail. cbn [exec finish]. intros H. split.
  - exact (exec_chars_prefix _ _ _ _ _ H).
  - exact (exec_chars_closed _ _ _ _ _ H).
Qed.

Lemma star_body_inv (s : string) :
  forall acc pos m,
    star (atom_ok AAny) (exec seg_tail) (GOpen acc) pos s = Some m ->
    exists c rest,
      s = c ++ "</seg>" ++ rest
      /\ m = GDone (acc ++ c)
      /\ Forall (fun x => Ascii.eqb x Py.newline = false) (list_ascii_of_string c).
Proof.
  assert (K : forall acc pos s m,
             exec seg_tail (GOpen acc) pos s = Some m ->
             exists c rest,
               s = c ++ "</seg>" ++ rest
               /\ m = GDone (acc ++ c)
               /\ Forall (fun x => Ascii.eqb x Py.newline = false)
                         (list_ascii_of_string c)).
  { intros acc pos s0 m H. destruct (exec_tail_inv _ _ _ _ H) as [[rest ->] ->].
    exists EmptyString, rest. rewrite append_empty_r. repeat split. constructor. }
  induction s as [| c0 s IH]; intros acc pos m; cbn [star]; [apply K |].
  destruct (atom_ok AAny c0) eqn:Eok; [| apply K].
  destruct (star _ _ (push (GOpen acc) c0) (S pos) s) as [r |] eqn:E; [| apply K].
  intros [= <-]. cbn [push] in E.
  destruct (IH _ _ _ E) as (c & rest & -> & -> & Hc).
  exists (String c0 c), rest. rewrite append_snoc. repeat split.
  constructor; [| exact Hc]. cbn [atom_ok] in Eok. now apply negb_true_iff in Eok.
Qed.

Lemma exec_body_inv (pos : nat) (s : string) (m : grp) :
  exec seg_body GNone pos s = Some m ->
  exists c rest,
    s = ">" ++ c ++ "</seg>" ++ rest
    /\ m = GDone c
    /\ Forall (fun x => Ascii.eqb x Py.newline = false) (list_ascii_of_string c).
Proof.
  unfold seg_body. cbn [chars app exec].
  destruct s as [| d s]; [discriminate |].
  cbn [atom_ok]. destruct (Ascii.eqb_spec d ">") as [-> |]; [| discriminate].
  cbn [push]. intros H. destruct (star_body_inv _ _ _ _ H) as (c & rest & -> & -> & Hc).
  now exists c, rest.
Qed.

Lemma star_attrs_inv (s : string) :
  forall pos m,
    star (atom_ok (ANot ">")) (exec seg_body) GNone pos s = Some m ->
    exists attrs c rest,
      s = attrs ++ ">" ++ c ++ "</seg>" ++ rest
      /\ m = GDone c
      /\ Forall (fun x => Ascii.eqb x ">" = false) (list_ascii_of_string attrs)
      /\ Forall (fun x => Ascii.eqb x Py.newline = false) (list_ascii_of_string c).
Proof.
  assert (K : forall pos s m,
             exec seg_body GNone pos s = Some m ->
             exists attrs c rest,
               s = attrs ++ ">" ++ c ++ "</seg>" ++ rest
               /\ m = GDone c
               /\ Forall (fun x => Ascii.eqb x ">" = false)
                         (list_ascii_of_string attrs)
               /\ Forall (fun x => Ascii.eqb x Py.newline = false)
                         (list_ascii_of_string c)).
  { intros pos s0 m H. destruct (exec_body_inv _ _ _ H) as (c & rest & -> & -> & Hc).
    exists EmptyString, c, rest. repeat split; [constructor | exact Hc]. }
  induction s as [| c0 s IH]; intros pos m; cbn [star]; [apply K |].
  destruct (atom_ok (ANot ">") c0) eqn:Eok; [| apply K].
  destruct (star _ _ (push GNone c0) (S pos) s) as [r |] eqn:E; [| apply K].
  intros [= <-]. cbn [push] in E.
  destruct (IH _ _ E) as (attrs & c & rest & -> & -> & Ha & Hc).
  exists (String c0 attrs), c, rest. repeat split; [| exact Hc].
  constructor; [| exact Ha]. cbn [atom_ok] in Eok. now apply negb_true_iff in Eok.
Qed.

(** X1. What [eval_segment] captures on a line really is in the line,
    between the [>] that ends the opening tag and a closing tag: the
    line is [<seg], attributes without [>], [>], the captured text,
    [</seg>] and a rest, and the captured text has no line terminator. *)
Theorem seg_content_sound (l c : string) :
  seg_content l = Some c ->
  exists attrs rest,
    l = "<seg" ++ attrs ++ ">" ++ c ++ "</seg>" ++ rest
    /\ Corpus.lacks ">" attrs = true
    /\ Corpus.lacks Py.newline c = true.
Proof.
  unfold seg_content, rmatch, eval_segment. cbn [chars app exec Nat.eqb].
  destruct l as [| c1 l]; [discriminate |].
  cbn [atom_ok]. destruct (Ascii.eqb_spec c1 "<") as [-> |]; [| discriminate].
  destruct l as [| c2 l]; [discriminate |].
  destruct (Ascii.eqb_spec c2 "s") as [-> |]; [| discriminate].
  destruct l as [| c3 l]; [discriminate |].
  destruct (Ascii.eqb_spec c3 "e") as [-> |]; [| discriminate].
  destruct l as [| c4 l]; [discriminate |].
  destruct (Ascii.eqb_spec c4 "g") as [-> |]; [| discriminate].
  cbn [push].
  destruct (star _ _ GNone 4 l) as [m |] eqn:E; [| discriminate].
  destruct (star_attrs_inv _ _ _ E) as (attrs & c' & rest & -> & -> & Ha & Hc).
  cbn [group1]. intros [= <-]. exists attrs, rest.
  repeat split; now apply forall_lacks.
Qed.

Lemma seg_content_sound_witness :
  exists attrs rest,
    "<seg id=1> Guten Tag </seg>" ++ Demo.nl
    = "<seg" ++ attrs ++ ">" ++ " Guten Tag " ++ "</seg>" ++ rest
    /\ Corpus.lacks ">" attrs = true
    /\ Corpus.lacks Py.newline " Guten Tag " = true.
Proof.
  apply (seg_content_sound ("<seg id=1> Guten Tag </seg>" ++ Demo.nl)
           " Guten Tag ").
  vm_compute. reflexivity.
Defined.

Lemma seg_content_shape (attrs content tail : string) :
  Corpus.lacks ">" attrs = true ->
  Corpus.lacks Py.newline content = true ->
  Corpus.line_end tail = true ->
  seg_content ("<seg" ++ attrs ++ ">" ++ content ++ "</seg>" ++ tail)
  = Some content.
Proof.
  intros Ha Hc Ht. unfold seg_content.
  rewrite (eval_segment_content attrs content tail);
    [reflexivity | now apply lacks_forall | now apply lacks_forall
     | now apply line_end_cases].
Qed.

(** X2. On a line made of [<seg], attributes without [>], [>], a text
    without line terminator, [</seg>], and then nothing or a line
    terminator, [eval_segment] captures exactly that text, also when the
    text itself contains [>] or [</seg>]. *)
Theorem seg_content_complete (attrs content tail : string) :
  Corpus.lacks ">" attrs = true ->
  Corpus.lacks Py.newline content = true ->
  Corpus.line_end tail = true ->
  seg_content ("<seg" ++ attrs ++ ">" ++ content ++ "</seg>" ++ tail)
  = Some content.
Proof.
  intros Ha Hc Ht. now apply seg_content_shape.
Qed.

Lemma seg_content_complete_witness :
  seg_content ("<seg" ++ " id=7" ++ ">" ++ "a > b </seg> c" ++ "</seg>" ++ Demo.nl)
  = Some "a > b </seg> c".
Proof.
  apply (seg_content_complete " id=7" "a > b </seg> c" Demo.nl);
    vm_compute; reflexivity.
Defined.

End SegmentFacts.

(* ================================================================== *)
(** ** Lines written from words are read back as these words *)

Section TokenFacts.

Import Iwslt.

Lemma append_assoc_str (a b c : string) : (a ++ b) ++ c = a ++ b ++ c.
Proof.
  induction a as [| x a IH]; simpl; [reflexivity | now rewrite IH].
Qed.

Lemma split_from_lstrip (s : string) :
  Py.split_from EmptyString (Py.lstrip s) = Py.split_from EmptyString s.
Proof.
  induction s as [| c s IH]; [reflexivity |]. cbn [Py.lstrip].
  destruct (Py.is_space c) eqn:Ec; [| reflexivity].
  cbn [Py.split_from]. now rewrite Ec.
Qed.

Lemma split_from_step (cur : string) (c : ascii) (s : string) :
  Py.split_from cur (String c s)
  = if Py.is_space c then
      match cur with
      | EmptyString => Py.split_from EmptyString s
      | _ => cur :: Py.split_from EmptyString s
      end
    else Py.split_from (cur ++ String c EmptyString) s.
Proof. reflexivity. Qed.

Lemma split_from_rstrip (s : string) :
  forall cur, Py.split_from cur (Py.rstrip s) = Py.split_from cur s.
Proof.
  induction s as [| c s IH]; intros cur; [reflexivity |].
  cbn [Py.rstrip]. rewrite (split_from_step cur c s).
  destruct (Py.rstrip s) as [| r0 r] eqn:Er.
  - destruct (Py.is_space c) eqn:Ec.
    + rewrite <- IH. now destruct cur.
    + rewrite <- IH. rewrite split_from_step, Ec. reflexivity.
  - rewrite split_from_step. destruct (Py.is_space c); [| apply IH].
    destruct cur; now rewrite IH.
Qed.

(** Stripping a text does not change the words [split] finds in it. *)
Lemma split_strip (s : string) : Py.split (Py.strip s) = Py.split s.
Proof.
  unfold Py.split, Py.strip. now rewrite split_from_rstrip, split_from_lstrip.
Qed.

Lemma is_word_inv (t : string) :
  Corpus.is_word t = true ->
  t <> EmptyString
  /\ Forall (fun c => Py.is_space c = false) (list_ascii_of_string t).
Proof.
  unfold Corpus.is_word. intros H. apply andb_prop in H. destruct H as [Hn Hw].
  split.
  - intros ->. discriminate Hn.
  - induction (list_ascii_of_string t) as [| x l IH]; constructor;
      cbn [forallb] in Hw; apply andb_prop in Hw; destruct Hw as [Hx Hl].
    + now apply negb_true_iff in Hx.
    + now apply IH.
Qed.

Lemma split_from_run (t : string) :
  forall cur rest,
    Forall (fun c => Py.is_space c = false) (list_ascii_of_string t) ->
    Py.split_from cur (t ++ rest) = Py.split_from (cur ++ t) rest.
Proof.
  induction t as [| c t IH]; intros cur rest H; cbn [append].
  - now rewrite append_empty_r.
  - inversion H as [| ? ? Hc Ht]; subst. cbn [Py.split_from]. rewrite Hc.
    rewrite (IH _ _ Ht). now rewrite append_snoc.
Qed.

Lemma split_from_blank (tail : string) :
  forall cur,
    Spec.blank tail ->
    Py.split_from cur tail
    = match cur with EmptyString => [] | _ => [cur] end.
Proof.
  unfold Spec.blank. induction tail as [| c tail IH]; intros cur H;
    [reflexivity |].
  cbn [list_ascii_of_string] in H. inversion H as [| ? ? Hc Ht]; subst.
  cbn [Py.split_from]. rewrite Hc. rewrite (IH EmptyString Ht).
  now destruct cur.
Qed.

(** Words joined by single spaces and followed by white space split
    back into the same words. *)
Lemma split_join_words (words : list string) (tail : string) :
  forallb Corpus.is_word words = true ->
  Spec.blank tail ->
  Py.split (Py.join " " words ++ tail) = words.
Proof.
  unfold Py.split, Py.join. intros Hw Ht.
  induction words as [| x words IH].
  - cbn [String.concat append]. now rewrite split_from_blank.
  - cbn [forallb] in Hw. apply andb_prop in Hw. destruct Hw as [Hx Hws].
    destruct (is_word_inv x Hx) as [Hne Hrun].
    destruct words as [| y words].
    + cbn [String.concat]. rewrite (split_from_run x _ _ Hrun). cbn [append].
      rewrite (split_from_blank tail x Ht).
      destruct x; [now contradiction Hne | reflexivity].
    + change (String.concat " " (x :: y :: words))
        with (x ++ " " ++ String.concat " " (y :: words)).
      rewrite !append_assoc_str. rewrite (split_from_run x _ _ Hrun).
      cbn [append Py.split_from].
      change (Py.is_space " ") with true. cbv iota.
      rewrite (IH Hws).
      destruct x; [now contradiction Hne | reflexivity].
Qed.

Lemma blank_nl : Spec.blank (String Py.newline EmptyString).
Proof. repeat constructor. Qed.

Lemma words_lack_newline (words : list string) :
  forallb Corpus.is_word words = true ->
  Corpus.lacks Py.newline (Py.join " " words) = true.
Proof.
  intros Hw. apply forall_lacks. unfold Py.join.
  assert (Hword : forall x,
             Corpus.is_word x = true ->
             Forall (fun c => Ascii.eqb c Py.newline = false)
                    (list_ascii_of_string x)).
  { intros x Hx. destruct (is_word_inv x Hx) as [_ Hrun].
    eapply Forall_impl; [| exact Hrun]. intros c Hc. cbv beta in Hc.
    destruct (Ascii.eqb_spec c Py.newline) as [-> |]; [discriminate Hc | reflexivity]. }
  induction words as [| x words IH]; [constructor |].
  cbn [forallb] in Hw. apply andb_prop in Hw. destruct Hw as [Hx Hws].
  destruct words as [| y words]; [exact (Hword x Hx) |].
  change (String.concat " " (x :: y :: words))
    with (x ++ " " ++ String.concat " " (y :: words)).
  rewrite !chars_of_append. apply Forall_app. split; [exact (Hword x Hx) |].
  apply Forall_app. split; [repeat constructor | exact (IH Hws)].
Qed.

(** X3. A train line written as words joined by single spaces and ended
    by a line terminator is read back as these words: when not both
    lines begin with [<], the pair of such lines is yielded as the two
    lists of words (with the end-of-sequence token appended when one is
    given). *)
Theorem train_line_round_trip (eos : option string) (src_words tgt_words : list string) :
  forallb Corpus.is_word src_words = true ->
  forallb Corpus.is_word tgt_words = true ->
  Spec.both_meta (Corpus.text_line src_words, Corpus.text_line tgt_words) = false ->
  process_line true eos (Corpus.text_line src_words) (Corpus.text_line tgt_words)
  = Some (append_eos eos src_words, append_eos eos tgt_words).
Proof.
  intros Hs Ht Hm. rewrite process_line_train, Hm. unfold tokens, Corpus.text_line.
  rewrite !split_strip.
  rewrite (split_join_words src_words _ Hs blank_nl).
  now rewrite (split_join_words tgt_words _ Ht blank_nl).
Qed.

Lemma train_line_round_trip_witness :
  process_line true (Some "<eos>")
               (Corpus.text_line ["<i>Hallo</i>"; "Welt"])
               (Corpus.text_line ["Hello"; "world"; "!"])
  = Some (append_eos (Some "<eos>") ["<i>Hallo</i>"; "Welt"],
          append_eos (Some "<eos>") ["Hello"; "world"; "!"]).
Proof.
  apply (train_line_round_trip (Some "<eos>") ["<i>Hallo</i>"; "Welt"]
           ["Hello"; "world"; "!"]); vm_compute; reflexivity.
Defined.

(** X4. A line of an evaluation file written as a [seg] element around
    words joined by single spaces is read back as these words, whatever
    the attributes of the element (without [>]) and whatever the words,
    even words that contain [>] or [</seg>]. *)
Theorem seg_line_round_trip (eos : option string) (src_attrs tgt_attrs : string)
        (src_words tgt_words : list string) :
  Corpus.lacks ">" src_attrs = true ->
  Corpus.lacks ">" tgt_attrs = true ->
  forallb Corpus.is_word src_words = true ->
  forallb Corpus.is_word tgt_words = true ->
  process_line false eos (Corpus.seg_line src_attrs src_words)
               (Corpus.seg_line tgt_attrs tgt_words)
  = Some (append_eos eos src_words, append_eos eos tgt_words).
Proof.
  intros Has Hat Hs Ht. rewrite process_line_eval. unfold Corpus.seg_line.
  rewrite (seg_content_shape src_attrs _ (String Py.newline EmptyString)
             Has (words_lack_newline _ Hs) eq_refl).
  rewrite (seg_content_shape tgt_attrs _ (String Py.newline EmptyString)
             Hat (words_lack_newline _ Ht) eq_refl).
  unfold tokens. rewrite !split_strip.
  rewrite <- (append_empty_r (Py.join " " src_words)).
  rewrite <- (append_empty_r (Py.join " " tgt_words)).
  rewrite (split_join_words src_words EmptyString Hs ltac:(constructor)).
  now rewrite (split_join_words tgt_words EmptyString Ht ltac:(constructor)).
Qed.

Lemma seg_line_round_trip_witness :
  process_line false None
               (Corpus.seg_line " id=3" ["a</seg>b"; ">"; "Tag"])
               (Corpus.seg_line "" ["good"; "day"])
  = Some (append_eos None ["a</seg>b"; ">"; "Tag"],
          append_eos None ["good"; "day"]).
Proof.
  apply (seg_line_round_trip None " id=3" "" ["a</seg>b"; ">"; "Tag"]
           ["good"; "day"]); vm_compute; reflexivity.
Defined.

End TokenFacts.

(* ================================================================== *)
(** ** More on the reader and the loader *)

Section ReaderMore.

Import Py.
Import Iwslt.

Lemma process_line_eos (it : bool) (e s t : string) :
  process_line it (Some e) s t
  = option_map (Corpus.with_eos e) (process_line it None s t).
Proof.
  destruct it.
  - rewrite !process_line_train. now destruct (Spec.both_meta (s, t)).
  - rewrite !process_line_eval.
    destruct (seg_content s); [| reflexivity]. now destruct (seg_content t).
Qed.

Lemma yield_all_eos (it : bool) (e : string) (lps : list (string * string)) :
  yield_all it (Some e) lps = map (Corpus.with_eos e) (yield_all it None lps).
Proof.
  induction lps as [| [s t] lps IH]; [reflexivity |].
  cbn [yield_all]. rewrite process_line_eos.
  destruct (process_line it None s t); cbn [option_map map]; now rewrite IH.
Qed.

(** X5. The end-of-sequence token changes nothing but the end of the
    token lists: a reader called with a token yields the pairs the
    reader without token yields, each with the token appended on both
    sides; it fails when that one fails, with the same error, and leaves
    the same world. *)
Theorem eos_only_appends (split : str_obj) (path year langpair e : string)
        (w : world) :
  list_read_iwslt split path year langpair (Some e) w
  = (Corpus.map_result (map (Corpus.with_eos e))
       (fst (list_read_iwslt split path year langpair None w)),
     snd (list_read_iwslt split path year langpair None w)).
Proof.
  unfold list_read_iwslt, read_prologue.
  destruct (read_setup split path year langpair w) as [[[it sf] tf] | x];
    [| reflexivity].
  destruct (OS.open sf w) as [[so | x] w1]; [| reflexivity].
  destruct (OS.open tf w1) as [[to | x] w2]; [| reflexivity].
  cbn [is_train fr_eos src_obj tgt_obj fst snd Corpus.map_result].
  unfold read_loop. now rewrite yield_all_eos.
Qed.

Lemma zip_in_nth {A B : Type} (xs : list A) :
  forall (ys : list B) x y,
    In (x, y) (zip xs ys) ->
    exists i, nth_error xs i = Some x /\ nth_error ys i = Some y.
Proof.
  induction xs as [| a xs IH]; intros [| b ys] x y; cbn [zip In]; try tauto.
  intros [[= <- <-] | H].
  - now exists 0.
  - destruct (IH _ _ _ H) as (i & Hx & Hy). now exists (S i).
Qed.

(** X6. The reader keeps the two files aligned: every pair it yields
    is made, by the body of the loop, from the line of the source file
    and the line of the target file that have the same line number. *)
Theorem yielded_pairs_are_aligned (split : str_obj) (path year langpair : string)
        (eos : option string) (w : world) (it : bool) (sl tl : list string) :
  opened_lines split path year langpair w = Some (it, sl, tl) ->
  exists data w',
    list_read_iwslt split path year langpair eos w = (Ok data, w')
    /\ forall p,
        In p data ->
        exists i src_l tgt_l,
          nth_error sl i = Some src_l
          /\ nth_error tl i = Some tgt_l
          /\ process_line it eos src_l tgt_l = Some p.
Proof.
  intros Ho.
  destruct (list_read_iwslt_ok _ _ _ _ eos _ _ _ _ Ho) as (sf & tf & R).
  eexists. eexists. split; [exact R |].
  intros p Hin. unfold read_loop in Hin.
  apply yield_all_in in Hin. destruct Hin as (s & t & Hz & Hp).
  destruct (zip_in_nth _ _ _ _ Hz) as (i & Hs & Ht).
  now exists i, s, t.
Qed.

Lemma yielded_pairs_are_aligned_witness :
  exists data w',
    list_read_iwslt (lit "dev") "/data" "2016" "de-en" None Demo.w_data
    = (Ok data, w')
    /\ forall p,
        In p data ->
        exists i src_l tgt_l,
          nth_error (lines Demo.dev_de) i = Some src_l
          /\ nth_error (lines Demo.dev_en) i = Some tgt_l
          /\ process_line false None src_l tgt_l = Some p.
Proof.
  apply (yielded_pairs_are_aligned (lit "dev") "/data" "2016" "de-en" None
           Demo.w_data false (lines Demo.dev_de) (lines Demo.dev_en)).
  vm_compute. reflexivity.
Defined.

Lemma list_read_iwslt_world (split : str_obj) (path year langpair : string)
      (eos : option string) (w w' : world) (data : list pair) :
  list_read_iwslt split path year langpair eos w = (Ok data, w') ->
  exists sf tf, w' = after_read sf tf w.
Proof.
  unfold list_read_iwslt, read_prologue.
  destruct (read_setup split path year langpair w) as [[[it sf] tf] | x];
    [| discriminate].
  unfold OS.open.
  destruct (fs w (OS.resolve w sf)) as [s |]; [| discriminate].
  destruct (fs _ _) as [t |]; [| discriminate].
  intros [= _ <-]. now eexists; eexists.
Qed.

(** X7. A call of [load_iwslt] that returns has closed every file it
    opened: when no file is open before the call, none is after it. *)
Theorem load_iwslt_closes_files (path year langpair : string)
        (eos : option string) (w w' : world) (splits : list split_result) :
  OS.open_handles w = [] ->
  load_iwslt path year langpair eos w = (Ok splits, w') ->
  OS.open_handles w' = [].
Proof.
  intros H0. unfold load_iwslt.
  destruct (negb (dict_in supported (year ++ "." ++ langpair))); [discriminate |].
  cbn [load_splits].
  destruct (list_read_iwslt (lit "train") path year langpair eos w)
    as [[d1 | x] w1] eqn:E1; [| discriminate].
  destruct (list_read_iwslt (lit "dev") path year langpair eos w1)
    as [[d2 | x] w2] eqn:E2; [| discriminate].
  destruct (list_read_iwslt (lit "test") path year langpair eos w2)
    as [[d3 | x] w3] eqn:E3; [| discriminate].
  intros [= _ <-].
  destruct (list_read_iwslt_world _ _ _ _ _ _ _ _ E1) as (sf1 & tf1 & ->).
  destruct (list_read_iwslt_world _ _ _ _ _ _ _ _ E2) as (sf2 & tf2 & ->).
  destruct (list_read_iwslt_world _ _ _ _ _ _ _ _ E3) as (sf3 & tf3 & ->).
  now repeat apply after_read_releases.
Qed.

Lemma load_iwslt_closes_files_witness :
  OS.open_handles
    (snd (load_iwslt "/data" "2016" "de-en" None Demo.w_data)) = [].
Proof.
  apply (load_iwslt_closes_files "/data" "2016" "de-en" None Demo.w_data
           (snd (load_iwslt "/data" "2016" "de-en" None Demo.w_data))
           (match fst (load_iwslt "/data" "2016" "de-en" None Demo.w_data) with
            | Ok r => r
            | Raise _ => []
            end)); vm_compute; reflexivity.
Defined.

End ReaderMore.

(* ================================================================== *)
(** ** Arguments the functions refuse *)

Section ArgumentFacts.

Import Py.
Import Iwslt.

Lemma split_on_length (c : ascii) (s : string) :
  List.length (split_on c s) = S (Corpus.count_char c s).
Proof.
  induction s as [| x s IH]; [reflexivity |].
  cbn [split_on Corpus.count_char]. destruct (Ascii.eqb x c).
  - cbn [List.length]. now rewrite IH.
  - destruct (split_on c s) as [| h t]; [discriminate IH |].
    cbn [List.length] in *. exact IH.
Qed.

Lemma unpack2_one_sep (l : string) :
  Corpus.count_char "-" l = 1 ->
  exists a b, split_on "-" l = [a; b] /\ unpack2 (split_on "-" l) = Ok (a, b).
Proof.
  intros H. pose proof (split_on_length "-" l) as Hl. rewrite H in Hl.
  destruct (split_on "-" l) as [| a [| b [| c r]]]; try discriminate Hl.
  now exists a, b.
Qed.

Lemma unpack2_other (l : string) :
  (Corpus.count_char "-" l =? 1)%nat = false ->
  exists msg, unpack2 (split_on "-" l) = Raise (ValueError msg).
Proof.
  intros H. apply Nat.eqb_neq in H.
  pose proof (split_on_length "-" l) as Hl.
  destruct (split_on "-" l) as [| a [| b [| c r]]]; cbn [unpack2];
    try (now eexists).
  cbn [List.length] in Hl. congruence.
Qed.

Lemma dict_get_missing {V : Type} (d : list (string * V)) (k : string) :
  dict_in d k = false -> dict_get d k = Raise (KeyError k).
Proof.
  unfold dict_in. induction d as [| [k' v] d IH]; [reflexivity |].
  cbn [existsb dict_get fst]. destruct (String.eqb k' k); [discriminate |].
  exact IH.
Qed.

Lemma dict_get_present {V : Type} (d : list (string * V)) (k : string) (v : V) :
  dict_get d k = Ok v -> dict_in d k = true.
Proof.
  unfold dict_in. induction d as [| [k' v'] d IH]; [discriminate |].
  cbn [existsb dict_get fst]. destruct (String.eqb k' k); [reflexivity |].
  exact IH.
Qed.

Lemma recognized_literal (split : str_obj) :
  s_interned split = true ->
  Spec.recognized_split (s_val split) = true ->
  negb (is_lit split "test" || is_lit split "dev" || is_lit split "train") = false.
Proof.
  unfold Spec.recognized_split, is_lit. cbn [existsb]. intros -> H.
  cbn [andb]. rewrite orb_false_r in H. apply negb_false_iff.
  destruct (String.eqb (s_val split) "train");
    destruct (String.eqb (s_val split) "dev");
    destruct (String.eqb (s_val split) "test"); try reflexivity; discriminate H.
Qed.




(** X10. Called directly with a recognized split and a well-formed
    language pair whose key is not in [supported], the reader raises a
    [KeyError] on that key at its first step, before it opens a file:
    unlike [load_iwslt] it has no check of its own. *)
Theorem read_iwslt_unsupported_key (split : str_obj)
        (path year langpair : string) (eos : option string) (w : world) :
  s_interned split = true ->
  Spec.recognized_split (s_val split) = true ->
  Corpus.count_char "-" langpair = 1 ->
  dict_in supported (year ++ "." ++ langpair) = false ->
  gen_next (GStart split path year langpair eos) w
  = (Raised (KeyError (year ++ "." ++ langpair)), GFinished, w)
  /\ list_read_iwslt split path year langpair eos w
     = (Raise (KeyError (year ++ "." ++ langpair)), w).
Proof.
  intros Hi Hr Hc Hk.
  assert (Hs : read_setup split path year langpair w
               = Raise (KeyError (year ++ "." ++ langpair))).
  { unfold read_setup. rewrite (recognized_literal split Hi Hr).
    destruct (unpack2_one_sep langpair Hc) as (a & b & _ & ->).
    cbn [bind]. now rewrite (dict_get_missing _ _ Hk). }
  cbn [gen_next]. unfold list_read_iwslt, read_prologue. rewrite Hs. now split.
Qed.

Lemma read_iwslt_unsupported_key_witness :
  gen_next (GStart (lit "train") "/data" "2015" "de-en" None) Demo.w_data
  = (Raised (KeyError ("2015" ++ "." ++ "de-en")), GFinished, Demo.w_data)
  /\ list_read_iwslt (lit "train") "/data" "2015" "de-en" None Demo.w_data
     = (Raise (KeyError ("2015" ++ "." ++ "de-en")), Demo.w_data).
Proof.
  apply (read_iwslt_unsupported_key (lit "train") "/data" "2015" "de-en" None
           Demo.w_data); reflexivity.
Defined.

(** X11. A language pair that does not hold exactly one hyphen cannot be
    unpacked into source and target language: [download_iwslt] raises a
    [ValueError] without calling the downloader, and the reader called
    with a recognized split raises one without opening a file. *)
Theorem malformed_langpair_raises (dl : downloader) (split : str_obj)
        (path year langpair : string) (force : bool) (eos : option string)
        (w : world) :
  (Corpus.count_char "-" langpair =? 1)%nat = false ->
  s_interned split = true ->
  Spec.recognized_split (s_val split) = true ->
  exists msg,
    download_iwslt dl path year langpair force w = (Raise (ValueError msg), w)
    /\ list_read_iwslt split path year langpair eos w
       = (Raise (ValueError msg), w).
Proof.
  intros Hc Hi Hr. destruct (unpack2_other langpair Hc) as [msg Hu].
  exists msg. split.
  - unfold download_iwslt. now rewrite Hu.
  - unfold list_read_iwslt, read_prologue, read_setup.
    rewrite (recognized_literal split Hi Hr), Hu. reflexivity.
Qed.

Lemma malformed_langpair_raises_witness :
  exists msg,
    download_iwslt Demo.new_download "/data" "2016" "deen" false Demo.w_fresh
    = (Raise (ValueError msg), Demo.w_fresh)
    /\ list_read_iwslt (lit "dev") "/data" "2016" "deen" None Demo.w_fresh
       = (Raise (ValueError msg), Demo.w_fresh).
Proof.
  apply (malformed_langpair_raises Demo.new_download (lit "dev") "/data" "2016"
           "deen" false None Demo.w_fresh); reflexivity.
Defined.

(** X12. The test on [split] is a test of identity: a string that is not
    the interned constant is refused, whatever its value, also when the
    value is [train]. *)
Theorem split_must_be_the_constant (split : str_obj)
        (path year langpair : string) (eos : option string) (w : world) :
  s_interned split = false ->
  gen_next (GStart split path year langpair eos) w
  = (Raised split_error, GFinished, w)
  /\ list_read_iwslt split path year langpair eos w = (Raise split_error, w).
Proof.
  intros Hi.
  assert (Hs : read_setup split path year langpair w = Raise split_error)
    by (unfold read_setup, is_lit; now rewrite Hi).
  cbn [gen_next]. unfold list_read_iwslt, read_prologue. rewrite Hs. now split.
Qed.

Lemma split_must_be_the_constant_witness :
  gen_next (GStart (mk_str "train" false) "/data" "2016" "de-en" None) Demo.w_data
  = (Raised split_error, GFinished, Demo.w_data)
  /\ list_read_iwslt (mk_str "train" false) "/data" "2016" "de-en" None Demo.w_data
     = (Raise split_error, Demo.w_data).
Proof.
  apply (split_must_be_the_constant (mk_str "train" false) "/data" "2016"
           "de-en" None Demo.w_data).
  reflexivity.
Defined.

End ArgumentFacts.

(* ================================================================== *)
(** ** Directories, file names and the number of steps *)

Section PathFacts.

Import Py.
Import Iwslt.

(** X13. [download_iwslt] asks the downloader for the file
    [{langpair}.tgz] at the URL made of the archive address, the year
    followed by [-01//texts/], the source language, the target language
    and a final slash, into [path], with the flag [force] and the local
    name [iwslt{year}.{langpair}.tgz]; when the downloader answers that
    it downloaded nothing, [download_iwslt] returns at once: it makes no
    directory and extracts nothing, and the world is the one the
    downloader left. *)
Theorem download_iwslt_without_download (dl : downloader)
        (path year langpair src tgt : string) (force : bool) (w w1 : world) :
  split_on "-" langpair = [src; tgt] ->
  dl (langpair ++ ".tgz")
     (iwslt_url ++ "/" ++ year ++ "-01//texts/" ++ src ++ "/" ++ tgt ++ "/")
     path force ("iwslt" ++ year ++ "." ++ langpair ++ ".tgz") w
  = (false, w1) ->
  download_iwslt dl path year langpair force w = (Ok tt, w1).
Proof.
  intros Hu Hd. unfold download_iwslt. rewrite Hu. cbn [unpack2].
  now rewrite Hd.
Qed.

Lemma download_iwslt_without_download_witness :
  download_iwslt Corpus.cached_download "/data" "2016" "de-en" false Demo.w_data
  = (Ok tt, Demo.w_data).
Proof.
  apply (download_iwslt_without_download Corpus.cached_download "/data" "2016"
           "de-en" "de" "en" false Demo.w_data Demo.w_data); reflexivity.
Defined.

Lemma endswith_append (c : ascii) (a b : string) :
  b <> EmptyString -> endswith c (a ++ b) = endswith c b.
Proof.
  intros Hb. induction a as [| x a IH]; [reflexivity |].
  cbn [append endswith]. destruct (a ++ b) as [| y r] eqn:E; [| exact IH].
  destruct a; cbn [append] in E; [contradiction | discriminate E].
Qed.

Lemma append_not_empty (a b : string) :
  b <> EmptyString -> String.eqb (a ++ b) EmptyString = false.
Proof.
  intros Hb. apply String.eqb_neq. intros E.
  destruct a; cbn [append] in E; [contradiction | discriminate E].
Qed.

(** Joining a relative name to a directory name puts one [/] between
    them. *)
Lemma join1_dir (p b : string) :
  startswith "/" b = false ->
  String.eqb p EmptyString = false ->
  endswith "/" p = false ->
  PosixPath.join1 p b = p ++ "/" ++ b.
Proof.
  intros Hb Hp He. unfold PosixPath.join1, PosixPath.sep.
  now rewrite Hb, Hp, He.
Qed.

Lemma join1_relative (a d : string) :
  startswith "/" d = false ->
  d <> EmptyString ->
  endswith "/" d = false ->
  String.eqb (PosixPath.join1 a d) EmptyString = false
  /\ endswith "/" (PosixPath.join1 a d) = false.
Proof.
  intros Hs Hd He. unfold PosixPath.join1, PosixPath.sep. rewrite Hs.
  destruct (String.eqb a EmptyString || endswith "/" a).
  - split; [now apply append_not_empty | now rewrite endswith_append].
  - rewrite <- append_assoc_str. split; [now apply append_not_empty |].
    now rewrite endswith_append.
Qed.

Lemma join_in_directory (root d leaf : string) :
  String.eqb root EmptyString = false ->
  endswith "/" root = false ->
  startswith "/" d = false ->
  d <> EmptyString ->
  endswith "/" d = false ->
  startswith "/" leaf = false ->
  PosixPath.join root [d; leaf] = root ++ "/" ++ d ++ "/" ++ leaf.
Proof.
  intros Hr He Hd Hn Hde Hl. unfold PosixPath.join. cbn [fold_left].
  rewrite (join1_dir root d Hd Hr He).
  rewrite join1_dir; [| exact Hl | |].
  - now rewrite !append_assoc_str.
  - rewrite <- append_assoc_str. now apply append_not_empty.
  - rewrite <- append_assoc_str. now rewrite endswith_append.
Qed.

Lemma is_lit_value (x : str_obj) (l : string) :
  is_lit x l = true -> s_val x = l.
Proof.
  unfold is_lit. intros H. apply andb_prop in H. now apply String.eqb_eq.
Qed.

(** X14. The two files the reader opens are in the directory of the
    language pair, inside the directory of the data set, inside the
    absolute form of [path]: their names are that directory name, a
    [/], the language pair, a [/], and the prefix of the split followed
    by a dot and the language, with [.xml] at the end for dev and test
    and nothing for train. *)
Theorem reader_file_names (split : str_obj) (path year langpair : string)
        (w : world) (it : bool) (sf tf : string) :
  read_setup split path year langpair w = Ok (it, sf, tf) ->
  exists src tgt entry prefix,
    split_on "-" langpair = [src; tgt]
    /\ dict_get supported (year ++ "." ++ langpair) = Ok entry
    /\ dict_get entry (s_val split) = Ok prefix
    /\ it = String.eqb (s_val split) "train"
    /\ sf = Corpus.root_path path year langpair w ++ "/" ++ langpair ++ "/"
               ++ prefix ++ "." ++ src ++ Corpus.suffix it
    /\ tf = Corpus.root_path path year langpair w ++ "/" ++ langpair ++ "/"
               ++ prefix ++ "." ++ tgt ++ Corpus.suffix it.
Proof.
  unfold read_setup, Corpus.root_path.
  destruct (negb (is_lit split "test" || is_lit split "dev" || is_lit split "train"))
    eqn:Hv; [discriminate |].
  destruct (unpack2 (split_on "-" langpair)) as [[src tgt] | x] eqn:Hu;
    cbn [bind]; [| discriminate].
  destruct (dict_get supported (year ++ "." ++ langpair)) as [entry | x] eqn:Hk;
    cbn [bind]; [| discriminate].
  destruct (dict_get entry (s_val split)) as [prefix | x] eqn:Hp;
    cbn [bind]; [| discriminate].
  intros H. exists src, tgt, entry, prefix.
  assert (Hparts : split_on "-" langpair = [src; tgt]).
  { destruct (split_on "-" langpair) as [| a [| b [| c r]]];
      cbn [unpack2] in Hu; try discriminate Hu. now injection Hu as -> ->. }
  split; [exact Hparts |]. split; [first [exact Hk | reflexivity] |].
  split; [first [exact Hp | reflexivity] |].
  set (A := PosixPath.abspath (cwd w) path) in *.
  destruct (supported_key_inv _ _ (dict_get_present _ _ _ Hk)) as [-> Hl].
  apply negb_false_iff in Hv.
  assert (Hleaf : forall lang,
             In lang [src; tgt] ->
             startswith "/" (prefix ++ "." ++ lang) = false).
  { clear H. intros lang Hlang.
    destruct Hl as [-> | ->]; cbn in Hk; injection Hk as <-;
      apply orb_prop in Hv; destruct Hv as [Hv | Hv];
      [ apply orb_prop in Hv; destruct Hv as [Hv | Hv] | | 
        apply orb_prop in Hv; destruct Hv as [Hv | Hv] | ];
      apply is_lit_value in Hv; rewrite Hv in Hp; cbn in Hp;
      injection Hp as <-; reflexivity. }
  assert (Hit : is_lit split "train" = String.eqb (s_val split) "train").
  { unfold is_lit. apply orb_prop in Hv. destruct Hv as [Hv | Hv];
      [apply orb_prop in Hv; destruct Hv as [Hv | Hv] |];
      unfold is_lit in Hv; apply andb_prop in Hv; destruct Hv as [-> _];
      reflexivity. }
  assert (Hjoin : forall leaf,
             startswith "/" leaf = false ->
             PosixPath.join (PosixPath.join A [local_dir "2016" langpair])
                            [langpair; leaf]
             = PosixPath.join A [local_dir "2016" langpair] ++ "/" ++ langpair
                 ++ "/" ++ leaf).
  { intros leaf Hleaf0.
    destruct Hl as [-> | ->];
      (apply join_in_directory;
       [ apply (join1_relative A); [reflexivity | discriminate | reflexivity]
       | apply (join1_relative A); [reflexivity | discriminate | reflexivity]
       | reflexivity | discriminate | reflexivity | exact Hleaf0 ]). }
  rewrite !Hjoin in H by (apply Hleaf; cbn; auto).
  rewrite <- Hit.
  destruct (is_lit split "train"); cbn [negb] in H; injection H as <- <- <-;
    cbn [Corpus.suffix]; unfold PosixPath.join; cbn [fold_left];
    repeat first [rewrite append_assoc_str | rewrite append_empty_r
                 | progress cbn [append]];
    repeat split; reflexivity.
Qed.

Lemma reader_file_names_witness :
  exists src tgt entry prefix,
    split_on "-" "de-en" = [src; tgt]
    /\ dict_get supported ("2016" ++ "." ++ "de-en") = Ok entry
    /\ dict_get entry (s_val (lit "dev")) = Ok prefix
    /\ false = String.eqb (s_val (lit "dev")) "train"
    /\ "/data/iwslt2016.de-en/de-en/IWSLT16.TED.tst2013.de-en.de.xml"
       = Corpus.root_path "/data" "2016" "de-en" Demo.w_data ++ "/" ++ "de-en"
           ++ "/" ++ prefix ++ "." ++ src ++ Corpus.suffix false
    /\ "/data/iwslt2016.de-en/de-en/IWSLT16.TED.tst2013.de-en.en.xml"
       = Corpus.root_path "/data" "2016" "de-en" Demo.w_data ++ "/" ++ "de-en"
           ++ "/" ++ prefix ++ "." ++ tgt ++ Corpus.suffix false.
Proof.
  apply (reader_file_names (lit "dev") "/data" "2016" "de-en" Demo.w_data).
  vm_compute. reflexivity.
Defined.

Lemma read_prologue_ok (split : str_obj) (path year langpair : string)
      (eos : option string) (w : world) (it : bool) (sl tl : list string) :
  opened_lines split path year langpair w = Some (it, sl, tl) ->
  exists sf tf w',
    read_prologue split path year langpair eos w
    = (Ok (mk_frame it eos (OS.mk_file sf sl) (OS.mk_file tf tl)), w').
Proof.
  intros H. unfold opened_lines in H. unfold read_prologue.
  destruct (read_setup split path year langpair w) as [[[it' sf] tf] | e];
    [| discriminate].
  destruct (fs w (OS.resolve w sf)) as [s |] eqn:Es; [| discriminate].
  destruct (fs w (OS.resolve w tf)) as [t |] eqn:Et; [| discriminate].
  injection H as -> <- <-.
  rewrite (open_some sf w s Es).
  rewrite (open_some tf (OS.log (EvOpen (OS.resolve w sf)) w) t Et).
  now eexists; eexists; eexists.
Qed.

(** X15. The generator is finite: when both files are there, calling
    [next] until it stops takes at most one call more than the source
    file has lines, and gives the pairs and the world of
    [list(read_iwslt(...))], both files closed. *)
Theorem next_until_stop (split : str_obj) (path year langpair : string)
        (eos : option string) (w : world) (it : bool) (sl tl : list string)
        (fuel : nat) :
  opened_lines split path year langpair w = Some (it, sl, tl) ->
  List.length sl < fuel ->
  drain fuel (GStart split path year langpair eos) w
  = Some (list_read_iwslt split path year langpair eos w).
Proof.
  intros Ho Hf.
  destruct (read_prologue_ok _ _ _ _ eos _ _ _ _ Ho) as (sf & tf & w' & E).
  destruct fuel as [| n]; [lia |].
  pose proof (drain_suspended (S n)
                (mk_frame it eos (OS.mk_file sf sl) (OS.mk_file tf tl)) w'
                ltac:(cbn; lia)) as H.
  unfold list_read_iwslt. cbn [drain gen_next] in H |- *. rewrite E. exact H.
Qed.

Lemma next_until_stop_witness :
  drain 4 (GStart (lit "train") "/data" "2016" "de-en" None) Demo.w_data
  = Some (list_read_iwslt (lit "train") "/data" "2016" "de-en" None Demo.w_data).
Proof.
  apply (next_until_stop (lit "train") "/data" "2016" "de-en" None Demo.w_data
           true (lines Demo.train_de) (lines Demo.train_en) 4).
  - vm_compute. reflexivity.
  - vm_compute. lia.
Defined.

End PathFacts.
